(** * go-containerregistry: the registry handshake and the remote image

    A shallow embedding of two Go files,

    - [v1/remote/transport/transport.go] (function [New]), and
    - [v1/remote/image.go] (type [image] and its methods),

    together with the properties their specification states about them.

    Go functions that talk to the network are functions of an explicit
    [World] (the registry and everything between it and the client): a call
    takes the world before it and returns the world after it beside its
    result.  A Go return pair [(v, err)] is a [result]: [Ok v] for
    [(v, nil)], [Err e] for [(zero, e)]; a run-time panic (an index out of
    range) is the third outcome, [Panic].  *)

From stdpp Require Import base option strings gmap list.

Local Open Scope string_scope.
Local Open Scope Z_scope.

(** ** Package [v1]: hashes, manifests, config files *)

Module v1.

(** Modelled from the spec: the struct [v1.Hash] of hash.go, which is not
    among the sources ("Digest — {algorithm: string, hex: string}",
    "Equality is structural").  Go compares two [v1.Hash] values with [==]
    field by field, and uses them as map keys. *)
Record Hash : Type := mkHash { Algorithm : string; Hex : string }.

#[global] Instance Hash_eq_dec : EqDecision Hash.
Proof. solve_decision. Defined.

#[global] Instance Hash_countable : Countable Hash.
Proof.
  refine (inj_countable' (λ h, (Algorithm h, Hex h)) (λ p, mkHash p.1 p.2) _).
  by intros [a x].
Defined.

(** Modelled from the spec: [Hash.String] of hash.go ("String(): renders as
    algorithm:hex"). *)
Definition Hash_String (h : Hash) : string := Algorithm h +:+ ":" +:+ Hex h.

(** Modelled from the spec: the structs of manifest.go and config.go, which
    are not among the sources ("Manifest — {schemaVersion, mediaType,
    config: {mediaType, size, digest}, layers: ordered sequence of
    {mediaType, size, digest}}", "ConfigFile — {rootFS: {type, diffIDs}}"). *)
Record Descriptor : Type :=
  mkDescriptor { DescriptorMediaType : string; Size : Z; Digest : Hash }.

Record Manifest : Type :=
  mkManifest {
    SchemaVersion : Z;
    MediaType : string;
    Config : Descriptor;
    Layers : list Descriptor
  }.

Record RootFS : Type := mkRootFS { RootFSType : string; DiffIDs : list Hash }.

Record ConfigFile : Type := mkConfigFile { RootFS_ : RootFS }.

End v1.

(** ** Package [name]: references *)

Module name.

(** Modelled from the spec: the package [name] is an external collaborator
    ("Reference supplies {registry host, repository path, identifier}" and
    "a Scope(accessLevel) capability that renders an authorization-scope
    string"). *)
Record Registry : Type := mkRegistry { registry : string }.

Definition Registry_String (r : Registry) : string := registry r.

Record Repository : Type :=
  mkRepository { Registry_ : Registry; repository : string }.

Definition RegistryStr (r : Repository) : string := Registry_String (Registry_ r).
Definition RepositoryStr (r : Repository) : string := repository r.

(** [name.Reference] is a Go interface (tags and digests implement it). *)
Class Reference (R : Type) : Type := {
  Context : R → Repository;
  Identifier : R → string;
  Scope : R → string → string
}.

End name.

(** ** Packages [net/url] and [net/http]: the values image.go builds and reads *)

Module url.

Record URL : Type := mkURL { Scheme : string; Host : string; Path : string }.

End url.

Module http.

(** [http.Header] maps a header name to its values; [Header.Set] replaces
    them by one value. *)
Definition Header_Set (k v : string) (h : gmap string (list string)) :
  gmap string (list string) := <[k := [v]]> h.

Record Request : Type :=
  mkRequest { Method : string; URL : url.URL; Header : gmap string (list string) }.

Definition Request_Header_Set (k v : string) (req : Request) : Request :=
  {| Method := Method req; URL := URL req; Header := Header_Set k v (Header req) |}.

(** A response body is modelled by the bytes the stream yields. *)
Definition ReadCloser : Type := string.

Record Response : Type :=
  mkResponse {
    StatusCode : Z;
    ResponseHeader : gmap string (list string);
    ContentLength : Z;
    Body : ReadCloser
  }.

(** [http.Client], over the type of its round trippers. *)
Record Client (RT : Type) : Type := mkClient { Transport : RT }.
Arguments mkClient {RT} Transport.
Arguments Transport {RT} _.

End http.

(** ** Errors, results and the monad of calls *)

(** An argument of a [fmt.Errorf] call, kept as the value passed. *)
Inductive fmt_arg : Type :=
| ArgString (s : string)
| ArgHash (h : v1.Hash)
| ArgMap (m : gmap string string).

(** A Go [error]: one built by [fmt.Errorf] in the two files modelled here
    (format string and arguments as written there), or any other error value
    (of net/http or of a helper that is not among the sources), of which only
    its message is known. *)
Inductive error : Type :=
| Errorf (format : string) (args : list fmt_arg)
| errorString (msg : string).

Inductive result (A : Type) : Type :=
| Ok (a : A)
| Err (e : error)
| Panic (msg : string).
Arguments Ok {A} a.
Arguments Err {A} e.
Arguments Panic {A} msg.

Definition M (World A : Type) : Type := World → result A * World.

#[global] Instance M_ret {World} : MRet (M World) := λ A a w, (Ok a, w).

#[global] Instance M_bind {World} : MBind (M World) := λ A B f m w,
  match m w with
  | (Ok a, w') => f a w'
  | (Err e, w') => (Err e, w')
  | (Panic p, w') => (Panic p, w')
  end.

(** [return zero, err] *)
Definition fail {World A} (e : error) : M World A := λ w, (Err e, w).

(** a run-time panic *)
Definition panic {World A} (msg : string) : M World A := λ w, (Panic msg, w).

(** A pure function that returns [(v, err)], called where the world is threaded. *)
Definition lift {World A} (r : result A) : M World A := λ w, (r, w).

(** ** Package [transport]: the authentication handshake (transport.go) *)

Module transport.

(** Modelled from the spec: the challenge kinds and the ping response of
    ping.go, which is not among the sources ("Challenge — enumeration
    {Anonymous, Basic, Bearer} plus a mapping from parameter name to value").
    [New] has a [default:] branch, so the type holds other schemes too. *)
Inductive Challenge : Type :=
| anonymous
| basic
| bearer
| unrecognized (scheme : string).

Definition Challenge_String (c : Challenge) : string :=
  match c with
  | anonymous => "Anonymous"
  | basic => "Basic"
  | bearer => "Bearer"
  | unrecognized s => s
  end.

Record pingResp : Type :=
  mkPingResp { challenge : Challenge; parameters : gmap string string }.

(** [type Scope string] *)
Definition Scope : Type := string.

(** The two transports [New] builds.  Their struct declarations are in
    basic.go and bearer.go; the fields are those of the literals in [New].
    Modelled from the spec: the field [token] ("for Bearer mode, owns a
    mutable current token"), which the literal leaves at its zero value. *)
Module basicTransport.
Record t (RT Authenticator : Type) : Type :=
  mk { inner : RT; auth : Authenticator }.
Arguments mk {RT Authenticator} inner auth.
Arguments inner {RT Authenticator} _.
Arguments auth {RT Authenticator} _.
End basicTransport.

Module bearerTransport.
Record t (RT Authenticator : Type) : Type :=
  mk {
    inner : RT;
    basic : Authenticator;
    realm : string;
    service : string;
    scope : string;
    token : option string
  }.
Arguments mk {RT Authenticator} inner basic realm service scope token.
Arguments inner {RT Authenticator} _.
Arguments basic {RT Authenticator} _.
Arguments realm {RT Authenticator} _.
Arguments service {RT Authenticator} _.
Arguments scope {RT Authenticator} _.
Arguments token {RT Authenticator} _.
End bearerTransport.

#[local] Set Warnings "-register-all".

(** A value of the interface [http.RoundTripper], by its dynamic type: a
    transport of the caller's ([T] is the type of those), or one of the two
    wrappers of this package around another round tripper. *)
Inductive RoundTripper (T Authenticator : Type) : Type :=
| external (t : T)
| ofBasic (b : basicTransport.t (RoundTripper T Authenticator) Authenticator)
| ofBearer (b : bearerTransport.t (RoundTripper T Authenticator) Authenticator).
Arguments external {T Authenticator} t.
Arguments ofBasic {T Authenticator} b.
Arguments ofBearer {T Authenticator} b.

Section handshake.

Context {World T Authenticator R : Type} `{!name.Reference R}.

Abbreviation RT := (RoundTripper T Authenticator).
Abbreviation bearerT := (bearerTransport.t (RoundTripper T Authenticator) Authenticator).

(** [ping] (ping.go) and the method [refresh] of [bearerTransport] (bearer.go) are not
    among the sources: [New] is modelled for any two such functions.
    [refresh] has a pointer receiver; it returns the struct as it left it. *)
Variable ping : name.Registry → RT → M World pingResp.
Variable refresh : bearerT → M World bearerT.

(** transport.go, [New]. *)
Definition New (ref : R) (auth : Authenticator) (t : RT) (a : Scope) : M World RT :=
  pr ← ping (name.Registry_ (name.Context ref)) t;
  match challenge pr with
  | anonymous => mret t
  | basic => mret (ofBasic (basicTransport.mk t auth))
  | bearer =>
      match parameters pr !! "realm" with
      | None =>
          fail (Errorf "malformed www-authenticate, missing realm: %v"
                       [ArgMap (parameters pr)])
      | Some realm =>
          let service :=
            match parameters pr !! "service" with
            | Some service => service
            | None => name.Registry_String (name.Registry_ (name.Context ref))
            end in
          let bt := bearerTransport.mk t auth realm service (name.Scope ref a) None in
          bt ← refresh bt;
          mret (ofBearer bt)
      end
  | unrecognized _ =>
      fail (Errorf "Unrecognized challenge: %s"
                   [ArgString (Challenge_String (challenge pr))])
  end.

End handshake.

Section ping.

Context {World T Authenticator : Type}.

Abbreviation RT := (RoundTripper T Authenticator).

(** The method [RoundTrip] of the interface, whatever implements it;
    [Scheme] of this package, which image.go calls too; and the parser of a
    [WWW-Authenticate] header value, [None] for a header it cannot read. *)
Variable RoundTrip : RT → http.Request → M World http.Response.
Variable Scheme : name.Registry → string.
Variable parseChallenge : string → option pingResp.

(** Modelled from the spec: the request of the ping ("issue a request to the
    registry's base endpoint (/v2/) using the caller-supplied base transport,
    no credentials attached"). *)
Definition pingRequest (reg : name.Registry) : http.Request :=
  {| http.Method := "GET";
     http.URL := {| url.Scheme := Scheme reg;
                    url.Host := name.Registry_String reg;
                    url.Path := "/v2/" |};
     http.Header := ∅ |}.

(** Modelled from the spec: [ping] of ping.go, which is not among the
    sources ("HTTP 200 → challenge = Anonymous", "HTTP 401 with a
    WWW-Authenticate header → parse the header's scheme token and its
    comma-separated key=value parameters into the Challenge's parameter
    mapping", "Any other outcome, or an unparseable header → fail with
    AuthHandshakeFailed"). *)
Definition ping (reg : name.Registry) (t : RT) : M World pingResp :=
  resp ← RoundTrip t (pingRequest reg);
  if decide (http.StatusCode resp = 200) then
    mret {| challenge := anonymous; parameters := ∅ |}
  else if decide (http.StatusCode resp = 401) then
    match http.ResponseHeader resp !! "Www-Authenticate" with
    | Some (h :: _) =>
        match parseChallenge h with
        | Some pr => mret pr
        | None => fail (errorString "AuthHandshakeFailed")
        end
    | _ => fail (errorString "AuthHandshakeFailed")
    end
  else fail (errorString "AuthHandshakeFailed").

End ping.

End transport.

(** ** Package [remote]: an image in a remote registry (image.go) *)

Module remote.

Section image.

Context {World T Authenticator R : Type} `{!name.Reference R}.

Abbreviation RT := (transport.RoundTripper T Authenticator).
Abbreviation bearerT :=
  (transport.bearerTransport.t (transport.RoundTripper T Authenticator) Authenticator).

(** What image.go calls and the sources do not hold: of package [transport],
    [ping] and [refresh] (through [New]), [Scheme] and the constant
    [PullScope]; of package [types], two media types; of package [v1], the
    decoders and [SHA256], which read a body to its end; of net/url and
    net/http, [URL.String], [NewRequest] and the three calls of a client. *)
Variable ping : name.Registry → RT → M World transport.pingResp.
Variable refresh : bearerT → M World bearerT.
Variable Scheme : name.Registry → string.
Variable PullScope : transport.Scope.
Variable DockerManifestSchema2 : string.
Variable OCIManifestSchema1 : string.
Variable ParseManifest : http.ReadCloser → result v1.Manifest.
Variable ParseConfigFile : http.ReadCloser → result v1.ConfigFile.
Variable SHA256 : http.ReadCloser → result v1.Hash.
Variable URL_String : url.URL → string.
Variable NewRequest : string → string → result http.Request.
Variable Do : http.Client RT → http.Request → M World http.Response.
Variable Get : http.Client RT → string → M World http.Response.
Variable Head : http.Client RT → string → M World http.Response.

(** image accesses an image from a remote registry *)
Record image : Type := mkImage { ref : R; client : http.Client RT }.

(** [Image] *)
Definition Image (ref : R) (auth : Authenticator) (t : RT) : M World image :=
  tr ← transport.New ping refresh ref auth t PullScope;
  mret {| ref := ref; client := http.mkClient tr |}.

(** [image.url]; the path is [fmt.Sprintf("/v2/%s/%s/%s", ...)]. *)
Definition url (i : image) (resource identifier : string) : url.URL :=
  {| url.Scheme := Scheme (name.Registry_ (name.Context (ref i)));
     url.Host := name.RegistryStr (name.Context (ref i));
     url.Path := "/v2/" +:+ name.RepositoryStr (name.Context (ref i))
                 +:+ "/" +:+ resource +:+ "/" +:+ identifier |}.

(** [image.Manifest] (the deferred [resp.Body.Close()] is not modelled). *)
Definition Manifest (i : image) : M World v1.Manifest :=
  let u := url i "manifests" (name.Identifier (ref i)) in
  req ← lift (NewRequest "GET" (URL_String u));
  let req := http.Request_Header_Set "Accept" DockerManifestSchema2 req in
  resp ← Do (client i) req;
  lift (ParseManifest (http.Body resp)).

(** [image.FSLayers]: the loop appends each layer's digest. *)
Definition FSLayers (i : image) : M World (list v1.Hash) :=
  manifest ← Manifest i;
  let layers := foldl (λ (layers : list v1.Hash) l, (layers ++ [v1.Digest l])%list) []
                      (v1.Layers manifest) in
  mret layers.

(** [image.ConfigName] *)
Definition ConfigName (i : image) : M World v1.Hash :=
  manifest ← Manifest i;
  mret (v1.Digest (v1.Config manifest)).

(** [image.Blob] *)
Definition Blob (i : image) (h : v1.Hash) : M World http.ReadCloser :=
  let u := url i "blobs" (v1.Hash_String h) in
  resp ← Get (client i) (URL_String u);
  mret (http.Body resp).

(** [image.ConfigFile] *)
Definition ConfigFile (i : image) : M World v1.ConfigFile :=
  hash ← ConfigName i;
  body ← Blob i hash;
  lift (ParseConfigFile body).

(** [image.DiffIDs] *)
Definition DiffIDs (i : image) : M World (list v1.Hash) :=
  config ← ConfigFile i;
  mret (v1.DiffIDs (v1.RootFS_ config)).

(** [image.BlobSet]: a [map[v1.Hash]struct{}] is a finite set of hashes. *)
Definition BlobSet (i : image) : M World (gset v1.Hash) :=
  let set : gset v1.Hash := ∅ in
  layers ← FSLayers i;
  let set := foldl (λ set h, {[h]} ∪ set) set layers in
  config ← ConfigName i;
  let set := {[config]} ∪ set in
  mret set.

(** [image.Digest] *)
Definition Digest (i : image) : M World v1.Hash :=
  let u := url i "manifests" (name.Identifier (ref i)) in
  req ← lift (NewRequest "GET" (URL_String u));
  let req := http.Request_Header_Set "Accept" DockerManifestSchema2 req in
  resp ← Do (client i) req;
  lift (SHA256 (http.Body resp)).

(** [image.MediaType] *)
Definition MediaType (i : image) : M World string :=
  mret OCIManifestSchema1.

(** [image.BlobSize].  It returns [-1] beside the error, so its Go pair
    [(int64, error)] is kept as a pair. *)
Definition BlobSize (i : image) (h : v1.Hash) : M World (Z * option error) := λ w,
  let u := url i "blobs" (v1.Hash_String h) in
  match Head (client i) (URL_String u) w with
  | (Ok resp, w') => (Ok (http.ContentLength resp, None), w')
  | (Err err, w') => (Ok (-1, Some err), w')
  | (Panic p, w') => (Panic p, w')
  end.

(** The loop of [image.Layer], [for n, l := range layers], from index [n]
    on; [diffids[n]] panics when [n] is out of range. *)
Fixpoint Layer_range (i : image) (h : v1.Hash) (n : nat)
    (layers diffids : list v1.Hash) : M World http.ReadCloser :=
  match layers with
  | [] => fail (Errorf "could not find Layer by diffid (%v)" [ArgHash h])
  | l :: layers =>
      if decide (l = h) then
        match diffids !! n with
        | Some d => Blob i d
        | None => panic "index out of range"
        end
      else Layer_range i h (S n) layers diffids
  end.

(** [image.Layer] *)
Definition Layer (i : image) (h : v1.Hash) : M World http.ReadCloser :=
  layers ← FSLayers i;
  diffids ← DiffIDs i;
  Layer_range i h 0 layers diffids.

(** [image.UncompressedBlob] *)
Definition UncompressedBlob (i : image) (h : v1.Hash) : M World http.ReadCloser :=
  fail (Errorf "NYI: remote.UncompressedBlob(%v)" [ArgHash h]).

(** [image.UncompressedLayer] *)
Definition UncompressedLayer (i : image) (h : v1.Hash) : M World http.ReadCloser :=
  fail (Errorf "NYI: remote.UncompressedLayer(%v)" [ArgHash h]).

End image.

End remote.

(** ** The command (main.go) *)

Module cmd.

(** How a function that returns nothing ends: it returns, or [log.Fatalln]
    / [log.Fatalf] logs a value and exits with status 1, or it panics. *)
Inductive outcome : Type :=
| Returned
| Exit1 (logged : error)
| Panicked (msg : string).

(** The dynamic type of a [name.Reference]: a tag or a digest. *)
#[global] Instance sum_Reference {Tag Digest : Type}
    `{!name.Reference Tag, !name.Reference Digest} : name.Reference (Tag + Digest) := {|
  name.Context := λ r,
    match r with inl t => name.Context t | inr d => name.Context d end;
  name.Identifier := λ r,
    match r with inl t => name.Identifier t | inr d => name.Identifier d end;
  name.Scope := λ r action,
    match r with inl t => name.Scope t action | inr d => name.Scope d action end
|}.

Section main.

Context {World T Authenticator Tag Digest Strictness : Type}.
Context `{!name.Reference Tag, !name.Reference Digest}.

Abbreviation RT := (transport.RoundTripper T Authenticator).
Abbreviation bearerT :=
  (transport.bearerTransport.t (transport.RoundTripper T Authenticator) Authenticator).
Abbreviation Reference := (Tag + Digest)%type.
Abbreviation image :=
  (remote.image (T := T) (Authenticator := Authenticator) (R := Tag + Digest)).

(** What main.go calls and the sources do not hold: of package [name], the
    two parsers and the constant [WeakValidation]; of package [authn], the
    default keychain, which reads the user's configuration; of net/http, the
    default transport; [json.Marshal], whose pair is kept because main.go
    drops its error; [fmt.Println], whose results main.go drops; and what
    [remote.Image] and the image's methods need. *)
Variable NewTag : string → Strictness → result Tag.
Variable NewDigest : string → Strictness → result Digest.
Variable WeakValidation : Strictness.
Variable Resolve : name.Registry → M World Authenticator.
Variable DefaultTransport : RT.
Variable MarshalConfigFile : v1.ConfigFile → string * option error.
Variable MarshalManifest : v1.Manifest → string * option error.
Variable Println : string → World → World.
Variable ping : name.Registry → RT → M World transport.pingResp.
Variable refresh : bearerT → M World bearerT.
Variable Scheme : name.Registry → string.
Variable PullScope : transport.Scope.
Variable DockerManifestSchema2 : string.
Variable ParseManifest : http.ReadCloser → result v1.Manifest.
Variable ParseConfigFile : http.ReadCloser → result v1.ConfigFile.
Variable URL_String : url.URL → string.
Variable NewRequest : string → string → result http.Request.
Variable Do : http.Client RT → http.Request → M World http.Response.
Variable Get : http.Client RT → string → M World http.Response.

(** [parseReference] *)
Definition parseReference (ref : string) : result Reference :=
  match NewTag ref WeakValidation with
  | Ok tag => Ok (inl tag)
  | Panic p => Panic p
  | Err _ =>
      match NewDigest ref WeakValidation with
      | Ok digest => Ok (inr digest)
      | Err err => Err err
      | Panic p => Panic p
      end
  end.

(** [x, err := f(); if err != nil { log.Fatalln(err) }], then the rest. *)
Definition orFatalln {A} (m : M World A) (rest : A → World → outcome * World) :
    World → outcome * World := λ w,
  match m w with
  | (Ok a, w') => rest a w'
  | (Err err, w') => (Exit1 err, w')
  | (Panic p, w') => (Panicked p, w')
  end.

(** [printConfig] *)
Definition printConfig (arg : string) : World → outcome * World :=
  orFatalln (lift (parseReference arg)) (λ ref,
  orFatalln (Resolve (name.Registry_ (name.Context ref))) (λ auth,
  orFatalln (remote.Image ping refresh PullScope ref auth DefaultTransport) (λ i,
  orFatalln (remote.ConfigFile Scheme DockerManifestSchema2 ParseManifest
               ParseConfigFile URL_String NewRequest Do Get i) (λ config,
  let out := (MarshalConfigFile config).1 in
  λ w, (Returned, Println out w))))).

(** [printManifest] *)
Definition printManifest (arg : string) : World → outcome * World :=
  orFatalln (lift (parseReference arg)) (λ ref,
  orFatalln (Resolve (name.Registry_ (name.Context ref))) (λ auth,
  orFatalln (remote.Image ping refresh PullScope ref auth DefaultTransport) (λ i,
  orFatalln (remote.Manifest Scheme DockerManifestSchema2 ParseManifest
               URL_String NewRequest Do i) (λ manifest,
  let out := (MarshalManifest manifest).1 in
  λ w, (Returned, Println out w))))).

(** [main], over [os.Args]; [os.Args[n]] panics when [n] is out of range. *)
Definition main (Args : list string) : World → outcome * World :=
  match Args !! 1%nat with
  | None => λ w, (Panicked "index out of range", w)
  | Some sub =>
      if decide (sub = "config") then
        match Args !! 2%nat with
        | None => λ w, (Panicked "index out of range", w)
        | Some arg =>
            if decide (arg ≠ "") then printConfig arg else λ w, (Returned, w)
        end
      else if decide (sub = "manifest") then
        match Args !! 2%nat with
        | None => λ w, (Panicked "index out of range", w)
        | Some arg =>
            if decide (arg ≠ "") then printManifest arg else λ w, (Returned, w)
        end
      else
        λ w, (Exit1 (Errorf "unexpected subcommand: %s" [ArgString sub]), w)
  end.

End main.

End cmd.

(** ** A registry to run the model on

    One repository, [library/app], at [registry.example], holding one image
    of two layers.  The world is the log of the requests the registry has
    received.  Whatever it does not hold it answers with 404. *)

Module testdata.

Record entry : Type :=
  mkEntry { method : string; target : string; authorization : option (list string) }.

Definition World : Type := list entry.

(** A tag, one implementation of [name.Reference]. *)
Record Tag : Type := mkTag { tag_repository : name.Repository; tag : string }.

#[global] Instance Tag_Reference : name.Reference Tag := {|
  name.Context := tag_repository;
  name.Identifier := tag;
  name.Scope := λ t action,
    "repository:" +:+ name.RepositoryStr (tag_repository t) +:+ ":" +:+ action
|}.

Definition app : Tag :=
  {| tag_repository := {| name.Registry_ := {| name.registry := "registry.example" |};
                          name.repository := "library/app" |};
     tag := "latest" |}.

Definition L0 : v1.Hash := v1.mkHash "sha256" "a0".
Definition L1 : v1.Hash := v1.mkHash "sha256" "a1".
Definition D0 : v1.Hash := v1.mkHash "sha256" "d0".
Definition D1 : v1.Hash := v1.mkHash "sha256" "d1".
Definition C : v1.Hash := v1.mkHash "sha256" "cf".
Definition missing : v1.Hash := v1.mkHash "sha256" "ee".

Definition layerType : string := "application/vnd.docker.image.rootfs.diff.tar.gzip".

Definition manifest : v1.Manifest :=
  {| v1.SchemaVersion := 2;
     v1.MediaType := "application/vnd.docker.distribution.manifest.v2+json";
     v1.Config := v1.mkDescriptor "application/vnd.docker.container.image.v1+json" 6 C;
     v1.Layers := [v1.mkDescriptor layerType 7 L0; v1.mkDescriptor layerType 7 L1] |}.

Definition config : v1.ConfigFile :=
  {| v1.RootFS_ := {| v1.RootFSType := "layers"; v1.DiffIDs := [D0; D1] |} |}.

Definition ok (body : string) : http.Response :=
  {| http.StatusCode := 200; http.ResponseHeader := ∅;
     http.ContentLength := Z.of_nat (String.length body); http.Body := body |}.

Definition notFound : http.Response :=
  {| http.StatusCode := 404; http.ResponseHeader := ∅;
     http.ContentLength := 18; http.Body := "404 page not found" |}.

(** What the registry answers at a path. *)
Definition serve (path : string) : http.Response :=
  if decide (path = "/v2/") then ok "{}"
  else if decide (path = "/v2/library/app/manifests/latest") then ok "manifest"
  else if decide (path = "/v2/library/app/blobs/sha256:cf") then ok "config"
  else if decide (path = "/v2/library/app/blobs/sha256:a0") then ok "layer 0"
  else if decide (path = "/v2/library/app/blobs/sha256:a1") then ok "layer 1"
  else notFound.

Definition Scheme (reg : name.Registry) : string := "https".

Definition URL_String (u : url.URL) : string :=
  url.Scheme u +:+ "://" +:+ url.Host u +:+ url.Path u.

(** The path of a URL of this registry, as [URL_String] writes it. *)
Definition path_of (u : string) : string :=
  String.substring 24 (String.length u - 24) u.

Definition NewRequest (method u : string) : result http.Request :=
  Ok {| http.Method := method;
        http.URL := {| url.Scheme := "https"; url.Host := "registry.example";
                       url.Path := path_of u |};
        http.Header := ∅ |}.

(** The caller's transport: it delivers the request to the registry, which
    logs it with its [Authorization] header, and brings the answer back. *)
Definition send (req : http.Request) : M World http.Response := λ w,
  (Ok (serve (url.Path (http.URL req))),
   (w ++ [mkEntry (http.Method req) (url.Path (http.URL req))
                  (http.Header req !! "Authorization")])%list).

Abbreviation RT := (transport.RoundTripper unit unit).
Abbreviation bearerT :=
  (transport.bearerTransport.t (transport.RoundTripper unit unit) unit).

(** The two wrappers are not run here: only a transport of the caller's
    makes a round trip. *)
Definition RoundTrip (t : RT) (req : http.Request) : M World http.Response :=
  match t with
  | transport.external _ => send req
  | _ => fail (errorString "transport not under test")
  end.

Definition Do (c : http.Client RT) (req : http.Request) : M World http.Response :=
  RoundTrip (http.Transport c) req.

Definition Get (c : http.Client RT) (u : string) : M World http.Response :=
  req ← lift (NewRequest "GET" u); Do c req.

Definition Head (c : http.Client RT) (u : string) : M World http.Response :=
  req ← lift (NewRequest "HEAD" u); Do c req.

Definition ParseManifest (body : http.ReadCloser) : result v1.Manifest :=
  if decide (body = "manifest") then Ok manifest
  else Err (errorString "invalid manifest").

Definition ParseConfigFile (body : http.ReadCloser) : result v1.ConfigFile :=
  if decide (body = "config") then Ok config
  else Err (errorString "invalid config").

Definition parseChallenge (h : string) : option transport.pingResp := None.

(** Pings that find a Bearer challenge with the given parameters. *)
Definition ping_bearer (parameters : gmap string string)
    (reg : name.Registry) (t : RT) : M World transport.pingResp :=
  mret {| transport.challenge := transport.bearer;
          transport.parameters := parameters |}.

(** A token exchange that is refused, and one that yields a token. *)
Definition refresh_refused (bt : bearerT) : M World bearerT :=
  fail (errorString "token exchange: 401 Unauthorized").

Definition refresh_granted (bt : bearerT) : M World bearerT :=
  mret (transport.bearerTransport.mk
          (transport.bearerTransport.inner bt) (transport.bearerTransport.basic bt)
          (transport.bearerTransport.realm bt) (transport.bearerTransport.service bt)
          (transport.bearerTransport.scope bt) (Some "t0k3n")).

Definition base : RT := transport.external tt.

Definition img : remote.image (R := Tag) (T := unit) (Authenticator := unit) :=
  {| remote.ref := app; remote.client := http.mkClient base |}.

(** The image's methods and the handshake, over this registry. *)
Definition DockerManifestSchema2 : string :=
  "application/vnd.docker.distribution.manifest.v2+json".
Definition OCIManifestSchema1 : string :=
  "application/vnd.oci.image.manifest.v1+json".

Definition Manifest :=
  remote.Manifest Scheme DockerManifestSchema2 ParseManifest URL_String NewRequest Do.
Definition FSLayers :=
  remote.FSLayers Scheme DockerManifestSchema2 ParseManifest URL_String NewRequest Do.
Definition DiffIDs :=
  remote.DiffIDs Scheme DockerManifestSchema2 ParseManifest ParseConfigFile
    URL_String NewRequest Do Get.
Definition Blob := remote.Blob Scheme URL_String Get.
Definition BlobSize := remote.BlobSize Scheme URL_String Head.
Definition BlobSet :=
  remote.BlobSet Scheme DockerManifestSchema2 ParseManifest URL_String NewRequest Do.
Definition Layer :=
  remote.Layer Scheme DockerManifestSchema2 ParseManifest ParseConfigFile
    URL_String NewRequest Do Get.

Definition ping := transport.ping RoundTrip Scheme parseChallenge.

Definition realmOnly : gmap string string :=
  {[ "realm" := "https://auth.example/token" ]}.

(** The log entry of a GET or HEAD that carries no [Authorization] header. *)
Definition plain (method path : string) : entry := mkEntry method path None.

(** Further pings: one that fails, one that finds a Basic challenge, one
    that finds a scheme [New] does not know. *)
Definition ping_refused (reg : name.Registry) (t : RT) : M World transport.pingResp :=
  fail (errorString "dial tcp: connection refused").

Definition ping_basic (reg : name.Registry) (t : RT) : M World transport.pingResp :=
  mret {| transport.challenge := transport.basic; transport.parameters := ∅ |}.

Definition ping_negotiate (reg : name.Registry) (t : RT) : M World transport.pingResp :=
  mret {| transport.challenge := transport.unrecognized "Negotiate";
          transport.parameters := ∅ |}.

(** A second tag of the same repository, which the registry does not hold. *)
Definition app_v2 : Tag :=
  {| tag_repository := tag_repository app; tag := "v2" |}.

Definition img_v2 : remote.image (R := Tag) (T := unit) (Authenticator := unit) :=
  {| remote.ref := app_v2; remote.client := http.mkClient base |}.

(** A stand-in for the hash: the hex of the digest is the body itself. *)
Definition SHA256 (body : http.ReadCloser) : result v1.Hash :=
  Ok (v1.mkHash "sha256" body).

Definition Digest :=
  remote.Digest Scheme DockerManifestSchema2 SHA256 URL_String NewRequest Do.

(** An [http.NewRequest] that refuses every URL. *)
Definition NewRequest_refuses (method u : string) : result http.Request :=
  Err (errorString "parse: invalid URL").

(** A decoder that finds one diff ID only, for an image of two layers. *)
Definition ParseShortConfig (body : http.ReadCloser) : result v1.ConfigFile :=
  Ok {| v1.RootFS_ := {| v1.RootFSType := "layers"; v1.DiffIDs := [D0] |} |}.

(** The command's surroundings: the digest form of a reference, the two
    parsers, a keychain without credentials, [json.Marshal], and a standard
    output that the world logs as entries of method "stdout". *)
Record DigestRef : Type :=
  mkDigestRef { digest_repository : name.Repository; digest : string }.

#[global] Instance DigestRef_Reference : name.Reference DigestRef := {|
  name.Context := digest_repository;
  name.Identifier := digest;
  name.Scope := λ d action,
    "repository:" +:+ name.RepositoryStr (digest_repository d) +:+ ":" +:+ action
|}.

Inductive Strictness : Type := StrictValidation | WeakValidation.

Definition NewTag (s : string) (strict : Strictness) : result Tag :=
  if decide (s = "registry.example/library/app:latest") then Ok app
  else if decide (s = "registry.example/library/app:v2") then Ok app_v2
  else Err (errorString "not a tag").

Definition NewDigest (s : string) (strict : Strictness) : result DigestRef :=
  if decide (s = "registry.example/library/app@sha256:mm")
  then Ok (mkDigestRef (tag_repository app) "sha256:mm")
  else Err (errorString "not a digest").

Definition Resolve (reg : name.Registry) : M World unit := mret tt.

Definition MarshalConfigFile (c : v1.ConfigFile) : string * option error :=
  ("{config}", None).

Definition MarshalManifest (m : v1.Manifest) : string * option error :=
  ("{manifest}", None).

Definition Println (line : string) (w : World) : World :=
  (w ++ [mkEntry "stdout" line None])%list.

Definition parseReference := cmd.parseReference NewTag NewDigest WeakValidation.

Definition printConfig :=
  cmd.printConfig NewTag NewDigest WeakValidation Resolve base MarshalConfigFile
    Println ping refresh_refused Scheme "pull" DockerManifestSchema2 ParseManifest
    ParseConfigFile URL_String NewRequest Do Get.

Definition printManifest :=
  cmd.printManifest NewTag NewDigest WeakValidation Resolve base MarshalManifest
    Println ping refresh_refused Scheme "pull" DockerManifestSchema2 ParseManifest
    URL_String NewRequest Do.

Definition main :=
  cmd.main NewTag NewDigest WeakValidation Resolve base MarshalConfigFile
    MarshalManifest Println ping refresh_refused Scheme "pull" DockerManifestSchema2
    ParseManifest ParseConfigFile URL_String NewRequest Do Get.

End testdata.

(** * Properties *)

(** ** Sequencing calls *)

Section calls.

Context {World A B : Type}.
Implicit Types (m : M World A) (f : A → M World B).

Lemma bind_Ok m f w a w' : m w = (Ok a, w') → (m ≫= f) w = f a w'.
Proof. intros H. unfold mbind, M_bind. by rewrite H. Qed.

Lemma bind_Err m f w e w' : m w = (Err e, w') → (m ≫= f) w = (Err e, w').
Proof. intros H. unfold mbind, M_bind. by rewrite H. Qed.

Lemma bind_Panic m f w p w' : m w = (Panic p, w') → (m ≫= f) w = (Panic p, w').
Proof. intros H. unfold mbind, M_bind. by rewrite H. Qed.

(** A call sequence that succeeds has a first call that succeeded. *)
Lemma bind_Ok_inv m f w b w2 :
  (m ≫= f) w = (Ok b, w2) → ∃ a w1, m w = (Ok a, w1) ∧ f a w1 = (Ok b, w2).
Proof.
  unfold mbind, M_bind. destruct (m w) as [[a|e|p] w1]; intros H.
  - by exists a, w1.
  - discriminate H.
  - discriminate H.
Qed.

End calls.

(** ** The handshake *)

Section handshake_properties.

Context {World T Authenticator R : Type} `{!name.Reference R}.

Abbreviation RT := (transport.RoundTripper T Authenticator).
Abbreviation bearerT :=
  (transport.bearerTransport.t (transport.RoundTripper T Authenticator) Authenticator).

Variable ping : name.Registry → RT → M World transport.pingResp.
Variable refresh : bearerT → M World bearerT.

(** The Bearer branch of [New], once the ping has found a realm: the struct
    literal, the exchange, the return. *)
Lemma New_bearer_unfold (ref : R) (auth : Authenticator) (t : RT)
    (a : transport.Scope) (w w1 : World) (pr : transport.pingResp) (realm : string) :
  ping (name.Registry_ (name.Context ref)) t w = (Ok pr, w1) →
  transport.challenge pr = transport.bearer →
  transport.parameters pr !! "realm" = Some realm →
  transport.New ping refresh ref auth t a w =
    (refresh (transport.bearerTransport.mk t auth realm
                (default (name.Registry_String (name.Registry_ (name.Context ref)))
                         (transport.parameters pr !! "service"))
                (name.Scope ref a) None)
       ≫= λ bt, mret (transport.ofBearer bt)) w1.
Proof.
  intros Hping Hch Hrealm. unfold transport.New.
  rewrite (bind_Ok _ _ _ _ _ Hping), Hch, Hrealm.
  by destruct (transport.parameters pr !! "service").
Qed.

(** C4.  When the ping finds a Bearer challenge whose parameters hold no
    [realm], [New] fails with the "malformed www-authenticate, missing realm"
    error (the spec's AuthHandshakeFailed) right after the ping, and returns
    no transport. *)
Theorem New_bearer_without_realm (ref : R) (auth : Authenticator) (t : RT)
    (a : transport.Scope) (w w1 : World) (pr : transport.pingResp) :
  ping (name.Registry_ (name.Context ref)) t w = (Ok pr, w1) →
  transport.challenge pr = transport.bearer →
  transport.parameters pr !! "realm" = None →
  transport.New ping refresh ref auth t a w =
    (Err (Errorf "malformed www-authenticate, missing realm: %v"
                 [ArgMap (transport.parameters pr)]), w1)
  ∧ ∀ tr w', transport.New ping refresh ref auth t a w ≠ (Ok tr, w').
Proof.
  intros Hping Hch Hrealm.
  assert (transport.New ping refresh ref auth t a w =
    (Err (Errorf "malformed www-authenticate, missing realm: %v"
                 [ArgMap (transport.parameters pr)]), w1)) as HNew.
  { unfold transport.New. rewrite (bind_Ok _ _ _ _ _ Hping), Hch, Hrealm.
    reflexivity. }
  split; [exact HNew|].
  intros tr w'. rewrite HNew. discriminate.
Qed.

(** C5.  When the ping finds a Bearer challenge with a [realm], [New] builds
    the bearer transport and runs its token exchange ([refresh]) in the world
    the ping left.  If the exchange fails, [New] returns its error and no
    transport; if it succeeds, [New] returns the transport as the exchange
    left it; and [New] returns no transport in any other way. *)
Theorem New_bearer_initial_exchange (ref : R) (auth : Authenticator) (t : RT)
    (a : transport.Scope) (w w1 : World) (pr : transport.pingResp) (realm : string) :
  ping (name.Registry_ (name.Context ref)) t w = (Ok pr, w1) →
  transport.challenge pr = transport.bearer →
  transport.parameters pr !! "realm" = Some realm →
  ∃ bt0 : bearerT,
    bt0 = transport.bearerTransport.mk t auth realm
            (default (name.Registry_String (name.Registry_ (name.Context ref)))
                     (transport.parameters pr !! "service"))
            (name.Scope ref a) None
    ∧ (∀ e w2, refresh bt0 w1 = (Err e, w2) →
         transport.New ping refresh ref auth t a w = (Err e, w2))
    ∧ (∀ bt w2, refresh bt0 w1 = (Ok bt, w2) →
         transport.New ping refresh ref auth t a w = (Ok (transport.ofBearer bt), w2))
    ∧ (∀ tr w2, transport.New ping refresh ref auth t a w = (Ok tr, w2) →
         ∃ bt, refresh bt0 w1 = (Ok bt, w2) ∧ tr = transport.ofBearer bt).
Proof.
  intros Hping Hch Hrealm.
  pose proof (New_bearer_unfold ref auth t a w w1 pr realm Hping Hch Hrealm) as HNew.
  exists (transport.bearerTransport.mk t auth realm
            (default (name.Registry_String (name.Registry_ (name.Context ref)))
                     (transport.parameters pr !! "service"))
            (name.Scope ref a) None).
  split_and!; [reflexivity| | |].
  - intros e w2 Hre. rewrite HNew. by apply bind_Err.
  - intros bt w2 Hre. rewrite HNew, (bind_Ok _ _ _ _ _ Hre). reflexivity.
  - intros tr w2. rewrite HNew. intros (bt & w' & Hre & Hret)%bind_Ok_inv.
    injection Hret as <- <-. by exists bt.
Qed.

(** C6.  The bearer transport [New] builds, and hands to the token exchange,
    has as its service the registry's host string when the challenge has no
    [service] parameter, and the value of that parameter, unchanged, when it
    has one. *)
Theorem New_bearer_service (ref : R) (auth : Authenticator) (t : RT)
    (a : transport.Scope) (w w1 : World) (pr : transport.pingResp) (realm : string) :
  ping (name.Registry_ (name.Context ref)) t w = (Ok pr, w1) →
  transport.challenge pr = transport.bearer →
  transport.parameters pr !! "realm" = Some realm →
  ∃ service : string,
    (transport.parameters pr !! "service" = None →
       service = name.Registry_String (name.Registry_ (name.Context ref)))
    ∧ (∀ s, transport.parameters pr !! "service" = Some s → service = s)
    ∧ transport.New ping refresh ref auth t a w =
        (refresh (transport.bearerTransport.mk t auth realm service
                    (name.Scope ref a) None)
           ≫= λ bt, mret (transport.ofBearer bt)) w1.
Proof.
  intros Hping Hch Hrealm.
  exists (default (name.Registry_String (name.Registry_ (name.Context ref)))
                  (transport.parameters pr !! "service")).
  split_and!.
  - by intros ->.
  - by intros s ->.
  - by apply New_bearer_unfold.
Qed.

End handshake_properties.

(** ** The handshake over the ping of the specification *)

Section anonymous_registry.

Context {World T Authenticator R : Type} `{!name.Reference R}.

Abbreviation RT := (transport.RoundTripper T Authenticator).
Abbreviation bearerT :=
  (transport.bearerTransport.t (transport.RoundTripper T Authenticator) Authenticator).

Variable RoundTrip : RT → http.Request → M World http.Response.
Variable Scheme : name.Registry → string.
Variable parseChallenge : string → option transport.pingResp.
Variable refresh : bearerT → M World bearerT.

(** A ping answered with 200 classifies the registry as anonymous. *)
Lemma ping_200 (reg : name.Registry) (t : RT) (w w1 : World) (resp : http.Response) :
  RoundTrip t (transport.pingRequest Scheme reg) w = (Ok resp, w1) →
  http.StatusCode resp = 200 →
  transport.ping RoundTrip Scheme parseChallenge reg t w =
    (Ok {| transport.challenge := transport.anonymous;
           transport.parameters := ∅ |}, w1).
Proof.
  intros Hrt Hst. unfold transport.ping.
  rewrite (bind_Ok _ _ _ _ _ Hrt). by rewrite decide_True.
Qed.

(** C3.  When the ping of [/v2/] is answered with HTTP 200, the challenge is
    classified as anonymous and [New] succeeds with the caller's transport
    itself: whatever [New] returned makes, of every request, the round trip
    the caller's transport makes of that same request, so nothing (no
    [Authorization] header) is added to it on the way. *)
Theorem New_anonymous_on_200 (ref : R) (auth : Authenticator) (t : RT)
    (a : transport.Scope) (w w1 : World) (resp : http.Response) :
  RoundTrip t (transport.pingRequest Scheme (name.Registry_ (name.Context ref))) w
    = (Ok resp, w1) →
  http.StatusCode resp = 200 →
  transport.ping RoundTrip Scheme parseChallenge
      (name.Registry_ (name.Context ref)) t w
    = (Ok {| transport.challenge := transport.anonymous;
             transport.parameters := ∅ |}, w1)
  ∧ transport.New (transport.ping RoundTrip Scheme parseChallenge) refresh
      ref auth t a w = (Ok t, w1)
  ∧ ∀ tr w', transport.New (transport.ping RoundTrip Scheme parseChallenge) refresh
               ref auth t a w = (Ok tr, w') →
      tr = t ∧ ∀ req w2, RoundTrip tr req w2 = RoundTrip t req w2.
Proof.
  intros Hrt Hst.
  pose proof (ping_200 _ t w w1 resp Hrt Hst) as Hping.
  assert (transport.New (transport.ping RoundTrip Scheme parseChallenge) refresh
            ref auth t a w = (Ok t, w1)) as HNew.
  { unfold transport.New. by rewrite (bind_Ok _ _ _ _ _ Hping). }
  split_and!.
  - exact Hping.
  - exact HNew.
  - intros tr w'. rewrite HNew. intros [= <- <-]. done.
Qed.

End anonymous_registry.

(** ** The remote image *)

Section image_properties.

Context {World T Authenticator R : Type} `{!name.Reference R}.

Abbreviation RT := (transport.RoundTripper T Authenticator).

Variable Scheme : name.Registry → string.
Variable DockerManifestSchema2 : string.
Variable OCIManifestSchema1 : string.
Variable ParseManifest : http.ReadCloser → result v1.Manifest.
Variable ParseConfigFile : http.ReadCloser → result v1.ConfigFile.
Variable URL_String : url.URL → string.
Variable NewRequest : string → string → result http.Request.
Variable Do : http.Client RT → http.Request → M World http.Response.
Variable Get : http.Client RT → string → M World http.Response.
Variable Head : http.Client RT → string → M World http.Response.

Abbreviation image := (remote.image (T := T) (Authenticator := Authenticator) (R := R)).
Abbreviation Manifest :=
  (remote.Manifest Scheme DockerManifestSchema2 ParseManifest URL_String NewRequest Do).
Abbreviation FSLayers :=
  (remote.FSLayers Scheme DockerManifestSchema2 ParseManifest URL_String NewRequest Do).
Abbreviation ConfigName :=
  (remote.ConfigName Scheme DockerManifestSchema2 ParseManifest URL_String NewRequest Do).
Abbreviation Blob := (remote.Blob Scheme URL_String Get).
Abbreviation BlobSize := (remote.BlobSize Scheme URL_String Head).
Abbreviation DiffIDs :=
  (remote.DiffIDs Scheme DockerManifestSchema2 ParseManifest ParseConfigFile
     URL_String NewRequest Do Get).
Abbreviation BlobSet :=
  (remote.BlobSet Scheme DockerManifestSchema2 ParseManifest URL_String NewRequest Do).
Abbreviation Layer_range := (remote.Layer_range Scheme URL_String Get).
Abbreviation Layer :=
  (remote.Layer Scheme DockerManifestSchema2 ParseManifest ParseConfigFile
     URL_String NewRequest Do Get).
Abbreviation blobURL i h := (URL_String (remote.url Scheme i "blobs" (v1.Hash_String h))).

(** *** The manifest's digests *)

Lemma foldl_append_Digest (ls : list v1.Descriptor) (acc : list v1.Hash) :
  foldl (λ (layers : list v1.Hash) l, (layers ++ [v1.Digest l])%list) acc ls
  = (acc ++ (v1.Digest <$> ls))%list.
Proof.
  revert acc. induction ls as [|l ls IH]; intros acc; simpl.
  - by rewrite app_nil_r.
  - rewrite IH. by rewrite <- app_assoc.
Qed.

Lemma FSLayers_Ok (i : image) (m : v1.Manifest) (w w1 : World) :
  Manifest i w = (Ok m, w1) →
  FSLayers i w = (Ok (v1.Digest <$> v1.Layers m), w1).
Proof.
  intros Hm. unfold remote.FSLayers. rewrite (bind_Ok _ _ _ _ _ Hm).
  by rewrite foldl_append_Digest.
Qed.

Lemma ConfigName_Ok (i : image) (m : v1.Manifest) (w w1 : World) :
  Manifest i w = (Ok m, w1) →
  ConfigName i w = (Ok (v1.Digest (v1.Config m)), w1).
Proof. intros Hm. unfold remote.ConfigName. by rewrite (bind_Ok _ _ _ _ _ Hm). Qed.

Lemma foldl_insert_set (l : list v1.Hash) (set : gset v1.Hash) :
  foldl (λ (set : gset v1.Hash) h, {[h]} ∪ set) set l = list_to_set l ∪ set.
Proof.
  revert set. induction l as [|h l IH]; intros set; simpl.
  - by rewrite (left_id_L ∅ (∪)).
  - rewrite IH. by rewrite (assoc_L (∪)), (comm_L (∪) (list_to_set l)).
Qed.

(** C7.  For an image whose manifest [m] the registry serves at both
    fetches [BlobSet] makes, [BlobSet] returns the set that holds the config
    digest of [m] and the digest of every layer of [m], and nothing else; as
    a set it holds no digest twice, so it has at most [N + 1] members for
    [N] layers. *)
Theorem BlobSet_exact (i : image) (m : v1.Manifest) (w w1 w2 : World) :
  Manifest i w = (Ok m, w1) →
  Manifest i w1 = (Ok m, w2) →
  ∃ set : gset v1.Hash,
    BlobSet i w = (Ok set, w2)
    ∧ set = {[v1.Digest (v1.Config m)]} ∪ list_to_set (v1.Digest <$> v1.Layers m)
    ∧ (∀ h, h ∈ set ↔ h = v1.Digest (v1.Config m) ∨ h ∈ v1.Digest <$> v1.Layers m)
    ∧ NoDup (elements set)
    ∧ (size set ≤ S (length (v1.Layers m)))%nat.
Proof.
  intros Hm1 Hm2.
  exists ({[v1.Digest (v1.Config m)]} ∪ list_to_set (v1.Digest <$> v1.Layers m)).
  assert (∀ h : v1.Hash,
    h ∈ ({[v1.Digest (v1.Config m)]} ∪ list_to_set (v1.Digest <$> v1.Layers m)
           : gset v1.Hash)
    ↔ h = v1.Digest (v1.Config m) ∨ h ∈ v1.Digest <$> v1.Layers m) as Hin.
  { intros h. rewrite elem_of_union, elem_of_singleton, elem_of_list_to_set. done. }
  split_and!.
  - unfold remote.BlobSet.
    rewrite (bind_Ok _ _ _ _ _ (FSLayers_Ok i m w w1 Hm1)).
    rewrite (bind_Ok _ _ _ _ _ (ConfigName_Ok i m w1 w2 Hm2)).
    rewrite foldl_insert_set. by rewrite (right_id_L ∅ (∪)).
  - reflexivity.
  - exact Hin.
  - apply NoDup_elements.
  - transitivity (length (v1.Digest (v1.Config m) :: (v1.Digest <$> v1.Layers m))).
    + apply submseteq_length, NoDup_submseteq; [apply NoDup_elements|].
      intros h Hh%elem_of_elements%Hin. rewrite elem_of_cons. exact Hh.
    + simpl. by rewrite length_fmap.
Qed.

(** *** Blobs *)

(** C2, as the code has it.  [Blob] and [BlobSize] never look at the status
    of the response.  When the GET at [/v2/{repo}/blobs/{h}] yields a
    response, of whatever status, [Blob h] returns its body without an
    error; when the HEAD there yields a response, of whatever status,
    [BlobSize h] returns its content length without an error.  Each of the
    two returns an error exactly when its own request failed, and then the
    error of that request ([BlobSize] with [-1] beside it). *)
Theorem Blob_BlobSize_any_status (i : image) (h : v1.Hash) (w : World) :
  (∀ resp w', Get (remote.client i) (blobURL i h) w = (Ok resp, w') →
     Blob i h w = (Ok (http.Body resp), w'))
  ∧ (∀ e w', Blob i h w = (Err e, w') ↔
       Get (remote.client i) (blobURL i h) w = (Err e, w'))
  ∧ (∀ resp w', Head (remote.client i) (blobURL i h) w = (Ok resp, w') →
       BlobSize i h w = (Ok (http.ContentLength resp, None), w'))
  ∧ (∀ n e w', BlobSize i h w = (Ok (n, Some e), w') ↔
       n = -1 ∧ Head (remote.client i) (blobURL i h) w = (Err e, w')).
Proof.
  split_and!.
  - intros resp w' Hget. unfold remote.Blob. by rewrite (bind_Ok _ _ _ _ _ Hget).
  - intros e w'. unfold remote.Blob, mbind, M_bind.
    destruct (Get (remote.client i) (blobURL i h) w) as [[resp|e'|p] w1]; simpl.
    + split; discriminate.
    + split; intros [= -> ->]; reflexivity.
    + split; discriminate.
  - intros resp w' Hhead. unfold remote.BlobSize. by rewrite Hhead.
  - intros n e w'. unfold remote.BlobSize.
    destruct (Head (remote.client i) (blobURL i h) w) as [[resp|e'|p] w1].
    + split; [discriminate|]. intros [_ Hhead]. discriminate Hhead.
    + split.
      * intros [= <- <- <-]. done.
      * intros [-> [= -> ->]]. reflexivity.
    + split; [discriminate|]. intros [_ Hhead]. discriminate Hhead.
Qed.

(** [Blob] fails exactly when its GET fails, with the error of the GET. *)
Lemma Blob_Err (i : image) (h : v1.Hash) (w w' : World) (e : error) :
  Blob i h w = (Err e, w') ↔ Get (remote.client i) (blobURL i h) w = (Err e, w').
Proof.
  unfold remote.Blob, mbind, M_bind.
  destruct (Get (remote.client i) (blobURL i h) w) as [[resp|e'|p] w1]; simpl.
  - split; discriminate.
  - split; intros [= -> ->]; reflexivity.
  - split; discriminate.
Qed.

(** C10.  [BlobSize h] makes one HEAD request, at the blob's URL.  When the
    request yields a response, [BlobSize] returns that response's
    [ContentLength] as it is and no error, whatever the status (so [-1] when
    the length is unknown); when the request fails, it returns [-1] beside
    the error.  The digest [h] enters through the URL only: two digests with
    one URL have one result, and nothing is compared with [h]. *)
Theorem BlobSize_ContentLength (i : image) (h : v1.Hash) (w : World) :
  (∀ resp w', Head (remote.client i) (blobURL i h) w = (Ok resp, w') →
     BlobSize i h w = (Ok (http.ContentLength resp, None), w'))
  ∧ (∀ resp w', Head (remote.client i) (blobURL i h) w = (Ok resp, w') →
       http.ContentLength resp = -1 → BlobSize i h w = (Ok (-1, None), w'))
  ∧ (∀ err w', Head (remote.client i) (blobURL i h) w = (Err err, w') →
       BlobSize i h w = (Ok (-1, Some err), w'))
  ∧ (∀ h', blobURL i h' = blobURL i h → BlobSize i h' w = BlobSize i h w).
Proof.
  split_and!.
  - intros resp w' Hhead. unfold remote.BlobSize. by rewrite Hhead.
  - intros resp w' Hhead Hlen. unfold remote.BlobSize. by rewrite Hhead, Hlen.
  - intros err w' Hhead. unfold remote.BlobSize. by rewrite Hhead.
  - intros h' Hurl. unfold remote.BlobSize. by rewrite Hurl.
Qed.

(** *** Layers *)

(** The loop of [Layer] stops at the first layer digest equal to [h], at
    index [k] say, and fetches the blob at [diffids[n + k]]. *)
Lemma Layer_range_find (i : image) (h : v1.Hash) (layers diffids : list v1.Hash) (n : nat) :
  Layer_range i h n layers diffids =
    match list_find (λ l, l = h) layers with
    | Some (k, _) =>
        match diffids !! (n + k)%nat with
        | Some d => Blob i d
        | None => panic "index out of range"
        end
    | None => fail (Errorf "could not find Layer by diffid (%v)" [ArgHash h])
    end.
Proof.
  revert n. induction layers as [|l layers IH]; intros n; simpl.
  - reflexivity.
  - destruct (decide (l = h)) as [->|Hne].
    + simpl. by rewrite Nat.add_0_r.
    + rewrite IH.
      destruct (list_find (λ l0, l0 = h) layers) as [[k x]|]; simpl; [|done].
      by rewrite Nat.add_succ_r.
Qed.

Lemma Layer_unfold (i : image) (h : v1.Hash) (layers diffids : list v1.Hash)
    (w w1 w2 : World) :
  FSLayers i w = (Ok layers, w1) →
  DiffIDs i w1 = (Ok diffids, w2) →
  Layer i h w = Layer_range i h 0 layers diffids w2.
Proof.
  intros Hl Hd. unfold remote.Layer.
  by rewrite (bind_Ok _ _ _ _ _ Hl), (bind_Ok _ _ _ _ _ Hd).
Qed.

(** What [Layer] does: given the digest at position [k] of the manifest's
    layers (its first position there), it fetches the blob at the digest at
    position [k] of the config's diff IDs. *)
Lemma Layer_of_layer_digest (i : image) (h d : v1.Hash)
    (layers diffids : list v1.Hash) (k : nat) (w w1 w2 : World) :
  FSLayers i w = (Ok layers, w1) →
  DiffIDs i w1 = (Ok diffids, w2) →
  layers !! k = Some h →
  (∀ j, (j < k)%nat → layers !! j ≠ Some h) →
  diffids !! k = Some d →
  Layer i h w = Blob i d w2.
Proof.
  intros Hl Hd Hk Hfirst Hdk.
  rewrite (Layer_unfold i h layers diffids w w1 w2 Hl Hd), Layer_range_find.
  assert (list_find (λ l, l = h) layers = Some (k, h)) as ->.
  { apply list_find_Some. split_and!; [done..|].
    intros j y Hj Hjk ->. by apply (Hfirst j). }
  simpl. by rewrite Hdk.
Qed.

(** What [Layer] does with a digest that is no layer digest of the manifest:
    it fails, whether the config lists the digest as a diff ID or not. *)
Lemma Layer_of_other_digest (i : image) (h : v1.Hash)
    (layers diffids : list v1.Hash) (w w1 w2 : World) :
  FSLayers i w = (Ok layers, w1) →
  DiffIDs i w1 = (Ok diffids, w2) →
  h ∉ layers →
  Layer i h w = (Err (Errorf "could not find Layer by diffid (%v)" [ArgHash h]), w2).
Proof.
  intros Hl Hd Hnot.
  rewrite (Layer_unfold i h layers diffids w w1 w2 Hl Hd), Layer_range_find.
  assert (list_find (λ l, l = h) layers = None) as ->; [|done].
  apply list_find_None, Forall_forall. by intros x Hx ->.
Qed.

(** *** The accessors that make no request *)

(** C8.  [UncompressedBlob h] and [UncompressedLayer h] fail for every
    digest, with an error that says "NYI" and names the accessor and the
    digest; they make no request and return no stream. *)
Theorem Uncompressed_not_supported (i : image) (h : v1.Hash) (w : World) :
  remote.UncompressedBlob i h w
    = (Err (Errorf "NYI: remote.UncompressedBlob(%v)" [ArgHash h]), w)
  ∧ remote.UncompressedLayer i h w
    = (Err (Errorf "NYI: remote.UncompressedLayer(%v)" [ArgHash h]), w)
  ∧ (∀ body w', remote.UncompressedBlob i h w ≠ (Ok body, w'))
  ∧ (∀ body w', remote.UncompressedLayer i h w ≠ (Ok body, w')).
Proof.
  split_and!; [reflexivity|reflexivity|..]; intros body w'; discriminate.
Qed.


End image_properties.

(** ** The model run on the registry of [testdata] *)

(** C1.  The manifest of [testdata.img] lists the layers [L0; L1], its config
    the diff IDs [D0; D1], and the blob at [L1] is "layer 1".  [Layer D1]
    should return that blob; it fails with "could not find Layer by diffid",
    because the loop looks the digest up among the manifest's layers.  Given
    the layer digest [L1], which is no diff ID, [Layer] does not fail either:
    it asks the registry for a blob at the diff ID [D1] (the last request of
    the log) and returns what comes back, the body of a 404. *)
Theorem Layer_looks_up_layers_fetches_diffid :
  (testdata.FSLayers testdata.img []).1 = Ok [testdata.L0; testdata.L1]
  ∧ (testdata.DiffIDs testdata.img []).1 = Ok [testdata.D0; testdata.D1]
  ∧ (testdata.Blob testdata.img testdata.L1 []).1 = Ok "layer 1"
  ∧ (testdata.Layer testdata.img testdata.D1 []).1
      = Err (Errorf "could not find Layer by diffid (%v)" [ArgHash testdata.D1])
  ∧ (testdata.Layer testdata.img testdata.L1 []).1 = Ok "404 page not found"
  ∧ last (testdata.Layer testdata.img testdata.L1 []).2
      = Some (testdata.plain "GET" "/v2/library/app/blobs/sha256:d1").
Proof.
  assert (testdata.FSLayers testdata.img []
          = (Ok [testdata.L0; testdata.L1],
             [testdata.plain "GET" "/v2/library/app/manifests/latest"])) as Hl
    by reflexivity.
  assert (testdata.DiffIDs testdata.img
            [testdata.plain "GET" "/v2/library/app/manifests/latest"]
          = (Ok [testdata.D0; testdata.D1],
             [testdata.plain "GET" "/v2/library/app/manifests/latest";
              testdata.plain "GET" "/v2/library/app/manifests/latest";
              testdata.plain "GET" "/v2/library/app/blobs/sha256:cf"])) as Hd
    by reflexivity.
  split_and!.
  - by rewrite Hl.
  - reflexivity.
  - reflexivity.
  - unfold testdata.Layer.
    rewrite (Layer_of_other_digest testdata.Scheme testdata.DockerManifestSchema2
               testdata.ParseManifest testdata.ParseConfigFile testdata.URL_String
               testdata.NewRequest testdata.Do testdata.Get
               testdata.img testdata.D1 _ _ _ _ _ Hl Hd); [done|].
    rewrite !elem_of_cons, elem_of_nil. by intros [?|[?|[]]].
  - unfold testdata.Layer.
    rewrite (Layer_of_layer_digest testdata.Scheme testdata.DockerManifestSchema2
               testdata.ParseManifest testdata.ParseConfigFile testdata.URL_String
               testdata.NewRequest testdata.Do testdata.Get
               testdata.img testdata.L1 testdata.D1 _ _ 1%nat _ _ _ Hl Hd).
    + reflexivity.
    + reflexivity.
    + intros [|j] Hj; [discriminate|lia].
    + reflexivity.
  - reflexivity.
Qed.

(** C2 fails on the code: the registry answers the GET and the HEAD for a
    blob it does not hold with 404, and [Blob] returns the body of that
    answer, [BlobSize] its content length, both without an error. *)
Lemma Blob_of_404_is_no_error :
  http.StatusCode (testdata.serve "/v2/library/app/blobs/sha256:ee") = 404
  ∧ (testdata.Get (remote.client testdata.img)
       (testdata.URL_String
          (remote.url testdata.Scheme testdata.img "blobs"
             (v1.Hash_String testdata.missing))) []).1
    = Ok (testdata.serve "/v2/library/app/blobs/sha256:ee")
  ∧ (testdata.Blob testdata.img testdata.missing []).1 = Ok "404 page not found"
  ∧ (testdata.BlobSize testdata.img testdata.missing []).1 = Ok (18, None).
Proof. split_and!; reflexivity. Qed.

(** The amended C2 at the blob the registry does not hold: a 404 each time. *)
Lemma Blob_BlobSize_any_status_witness :
  testdata.Blob testdata.img testdata.missing []
    = (Ok "404 page not found", [testdata.plain "GET" "/v2/library/app/blobs/sha256:ee"])
  ∧ testdata.BlobSize testdata.img testdata.missing []
    = (Ok (18, None), [testdata.plain "HEAD" "/v2/library/app/blobs/sha256:ee"]).
Proof.
  destruct (Blob_BlobSize_any_status testdata.Scheme testdata.URL_String
              testdata.Get testdata.Head testdata.img testdata.missing [])
    as (HBlob & _ & HSize & _).
  split.
  - apply (HBlob testdata.notFound). reflexivity.
  - apply (HSize testdata.notFound). reflexivity.
Defined.

(** C10 at the second layer: the HEAD is answered with a length of 7. *)
Lemma BlobSize_ContentLength_witness :
  testdata.BlobSize testdata.img testdata.L1 []
    = (Ok (7, None), [testdata.plain "HEAD" "/v2/library/app/blobs/sha256:a1"]).
Proof.
  apply (proj1 (BlobSize_ContentLength testdata.Scheme testdata.URL_String
                  testdata.Head testdata.img testdata.L1 [])
           (testdata.ok "layer 1")).
  reflexivity.
Defined.

(** C7 at the image of two layers: three digests. *)
Lemma BlobSet_exact_witness :
  ∃ set : gset v1.Hash,
    (testdata.BlobSet testdata.img []).1 = Ok set
    ∧ set = {[testdata.C]} ∪ list_to_set [testdata.L0; testdata.L1]
    ∧ (size set ≤ 3)%nat.
Proof.
  destruct (BlobSet_exact testdata.Scheme testdata.DockerManifestSchema2
              testdata.ParseManifest testdata.URL_String testdata.NewRequest
              testdata.Do testdata.img testdata.manifest []
              [testdata.plain "GET" "/v2/library/app/manifests/latest"]
              [testdata.plain "GET" "/v2/library/app/manifests/latest";
               testdata.plain "GET" "/v2/library/app/manifests/latest"])
    as (set & Hset & Heq & _ & _ & Hsize); [reflexivity|reflexivity|].
  exists set. split_and!; [|exact Heq|exact Hsize].
  unfold testdata.BlobSet. by rewrite Hset.
Defined.

(** C3 at this registry, whose [/v2/] answers 200: one request, the ping. *)
Lemma New_anonymous_on_200_witness :
  transport.New testdata.ping testdata.refresh_refused testdata.app tt testdata.base
    "pull" [] = (Ok testdata.base, [testdata.plain "GET" "/v2/"]).
Proof.
  apply (New_anonymous_on_200 testdata.RoundTrip testdata.Scheme
           testdata.parseChallenge testdata.refresh_refused testdata.app tt
           testdata.base "pull" [] [testdata.plain "GET" "/v2/"] (testdata.ok "{}"));
    reflexivity.
Defined.

(** C4 at a ping that finds a Bearer challenge with no parameter at all. *)
Lemma New_bearer_without_realm_witness :
  transport.New (testdata.ping_bearer ∅) testdata.refresh_granted testdata.app tt
    testdata.base "pull" []
  = (Err (Errorf "malformed www-authenticate, missing realm: %v" [ArgMap ∅]), []).
Proof.
  apply (New_bearer_without_realm (testdata.ping_bearer ∅) testdata.refresh_granted
           testdata.app tt testdata.base "pull" [] []
           {| transport.challenge := transport.bearer; transport.parameters := ∅ |});
    reflexivity.
Defined.

(** C5 at a ping that finds a realm, with a token exchange that is refused. *)
Lemma New_bearer_initial_exchange_witness :
  transport.New (testdata.ping_bearer testdata.realmOnly) testdata.refresh_refused
    testdata.app tt testdata.base "pull" []
  = (Err (errorString "token exchange: 401 Unauthorized"), []).
Proof.
  destruct (New_bearer_initial_exchange (testdata.ping_bearer testdata.realmOnly)
              testdata.refresh_refused testdata.app tt testdata.base "pull" [] []
              {| transport.challenge := transport.bearer;
                 transport.parameters := testdata.realmOnly |}
              "https://auth.example/token")
    as (bt0 & _ & Hrefused & _); [reflexivity..|].
  apply Hrefused. reflexivity.
Defined.

(** C6 at a ping that finds a realm and no service, with a token granted. *)
Lemma New_bearer_service_witness :
  transport.New (testdata.ping_bearer testdata.realmOnly) testdata.refresh_granted
    testdata.app tt testdata.base "pull" []
  = (Ok (transport.ofBearer
           (transport.bearerTransport.mk testdata.base tt "https://auth.example/token"
              "registry.example" "repository:library/app:pull" (Some "t0k3n"))), []).
Proof.
  destruct (New_bearer_service (testdata.ping_bearer testdata.realmOnly)
              testdata.refresh_granted testdata.app tt testdata.base "pull" [] []
              {| transport.challenge := transport.bearer;
                 transport.parameters := testdata.realmOnly |}
              "https://auth.example/token")
    as (service & Hdefault & _ & HNew); [reflexivity..|].
  rewrite HNew, Hdefault; reflexivity.
Defined.

(** After the handshake with this registry, the requests of the image reach
    it as the client built them: the log shows no [Authorization] header. *)
Example anonymous_image_requests :
  (remote.Image testdata.ping testdata.refresh_refused "pull" testdata.app tt
     testdata.base
   ≫= λ i, testdata.Manifest i) []
  = (Ok testdata.manifest,
     [testdata.plain "GET" "/v2/";
      testdata.plain "GET" "/v2/library/app/manifests/latest"]).
Proof. reflexivity. Qed.

(** * Further properties of the code *)

(** ** [New]: every way it ends *)

Section handshake_outcomes.

Context {World T Authenticator R : Type} `{!name.Reference R}.

Abbreviation RT := (transport.RoundTripper T Authenticator).
Abbreviation bearerT :=
  (transport.bearerTransport.t (transport.RoundTripper T Authenticator) Authenticator).

Variable ping : name.Registry → RT → M World transport.pingResp.

(** The struct literal of the Bearer branch. *)
Abbreviation seed ref auth t a pr realm :=
  (transport.bearerTransport.mk t auth realm
     (default (name.Registry_String (name.Registry_ (name.Context ref)))
              (transport.parameters pr !! "service"))
     (name.Scope ref a) None).

(** [New] after a ping that succeeded, branch by branch. *)
Lemma New_after_ping (refresh : bearerT → M World bearerT) (ref : R)
    (auth : Authenticator) (t : RT) (a : transport.Scope) (w w1 : World)
    (pr : transport.pingResp) :
  ping (name.Registry_ (name.Context ref)) t w = (Ok pr, w1) →
  transport.New ping refresh ref auth t a w =
    match transport.challenge pr with
    | transport.anonymous => (Ok t, w1)
    | transport.basic => (Ok (transport.ofBasic (transport.basicTransport.mk t auth)), w1)
    | transport.bearer =>
        match transport.parameters pr !! "realm" with
        | None => (Err (Errorf "malformed www-authenticate, missing realm: %v"
                               [ArgMap (transport.parameters pr)]), w1)
        | Some realm =>
            (refresh (seed ref auth t a pr realm)
               ≫= λ bt, mret (transport.ofBearer bt)) w1
        end
    | transport.unrecognized s =>
        (Err (Errorf "Unrecognized challenge: %s" [ArgString s]), w1)
    end.
Proof.
  intros Hping. unfold transport.New. rewrite (bind_Ok _ _ _ _ _ Hping).
  destruct (transport.challenge pr) eqn:Hch; try reflexivity.
  destruct (transport.parameters pr !! "realm"); [|reflexivity].
  by destruct (transport.parameters pr !! "service").
Qed.

(** X1.  Whenever [New] returns a transport, the ping succeeded and the
    transport is one of three: the caller's own (anonymous challenge, nothing
    done after the ping), a [basicTransport] around it with the caller's
    authenticator (Basic challenge, nothing done after the ping), or the
    [bearerTransport] a successful token exchange left (Bearer challenge with
    a realm). *)
Theorem New_Ok_inv (refresh : bearerT → M World bearerT) (ref : R)
    (auth : Authenticator) (t : RT) (a : transport.Scope) (w w2 : World) (tr : RT) :
  transport.New ping refresh ref auth t a w = (Ok tr, w2) →
  ∃ pr w1,
    ping (name.Registry_ (name.Context ref)) t w = (Ok pr, w1)
    ∧ ((transport.challenge pr = transport.anonymous ∧ tr = t ∧ w2 = w1)
       ∨ (transport.challenge pr = transport.basic
          ∧ tr = transport.ofBasic (transport.basicTransport.mk t auth) ∧ w2 = w1)
       ∨ (transport.challenge pr = transport.bearer
          ∧ ∃ realm bt,
              transport.parameters pr !! "realm" = Some realm
              ∧ refresh (seed ref auth t a pr realm) w1 = (Ok bt, w2)
              ∧ tr = transport.ofBearer bt)).
Proof.
  intros HNew.
  destruct (ping (name.Registry_ (name.Context ref)) t w) as [[pr|e|p] w1] eqn:Hping.
  - exists pr, w1. split; [reflexivity|].
    rewrite (New_after_ping refresh ref auth t a w w1 pr Hping) in HNew.
    destruct (transport.challenge pr) as [| | |s].
    + injection HNew as <- <-. by left.
    + injection HNew as <- <-. by right; left.
    + right; right. split; [reflexivity|].
      destruct (transport.parameters pr !! "realm") as [realm|]; [|discriminate].
      apply bind_Ok_inv in HNew as (bt & w' & Hre & Hret).
      injection Hret as <- <-. by exists realm, bt.
    + discriminate.
  - unfold transport.New in HNew. rewrite (bind_Err _ _ _ _ _ Hping) in HNew.
    discriminate.
  - unfold transport.New in HNew. rewrite (bind_Panic _ _ _ _ _ Hping) in HNew.
    discriminate.
Qed.

(** X2.  Whenever [New] returns an error, it is one of four: the error of the
    ping; "missing realm" for a Bearer challenge without one; "Unrecognized
    challenge" with the scheme's name for a challenge that is none of the
    three; or the error of the token exchange. *)
Theorem New_Err_inv (refresh : bearerT → M World bearerT) (ref : R)
    (auth : Authenticator) (t : RT) (a : transport.Scope) (w w2 : World) (e : error) :
  transport.New ping refresh ref auth t a w = (Err e, w2) →
  ping (name.Registry_ (name.Context ref)) t w = (Err e, w2)
  ∨ ∃ pr w1,
      ping (name.Registry_ (name.Context ref)) t w = (Ok pr, w1)
      ∧ ((transport.challenge pr = transport.bearer
          ∧ transport.parameters pr !! "realm" = None
          ∧ e = Errorf "malformed www-authenticate, missing realm: %v"
                       [ArgMap (transport.parameters pr)]
          ∧ w2 = w1)
         ∨ (∃ s, transport.challenge pr = transport.unrecognized s
                 ∧ e = Errorf "Unrecognized challenge: %s" [ArgString s]
                 ∧ w2 = w1)
         ∨ (transport.challenge pr = transport.bearer
            ∧ ∃ realm,
                transport.parameters pr !! "realm" = Some realm
                ∧ refresh (seed ref auth t a pr realm) w1 = (Err e, w2))).
Proof.
  intros HNew.
  destruct (ping (name.Registry_ (name.Context ref)) t w) as [[pr|e'|p] w1] eqn:Hping.
  - right. exists pr, w1. split; [reflexivity|].
    rewrite (New_after_ping refresh ref auth t a w w1 pr Hping) in HNew.
    destruct (transport.challenge pr) as [| | |s].
    + discriminate.
    + discriminate.
    + destruct (transport.parameters pr !! "realm") as [realm|].
      * right; right. split; [reflexivity|]. exists realm. split; [reflexivity|].
        revert HNew. unfold mbind, M_bind.
        destruct (refresh _ w1) as [[bt|e'|p] w']; [discriminate| |discriminate].
        by intros [= -> ->].
      * left. injection HNew as <- <-. done.
    + right; left. exists s. injection HNew as <- <-. done.
  - left. unfold transport.New in HNew. rewrite (bind_Err _ _ _ _ _ Hping) in HNew.
    by injection HNew as <- <-.
  - unfold transport.New in HNew. rewrite (bind_Panic _ _ _ _ _ Hping) in HNew.
    discriminate.
Qed.

(** X3.  [New] runs the token exchange for a Bearer challenge that has a
    realm, and for nothing else: when the ping failed, or found any other
    challenge, or a Bearer challenge without a realm, [New] ends in the world
    the ping left and its result is the same whatever the exchange would do. *)
Theorem New_without_exchange (refresh refresh' : bearerT → M World bearerT) (ref : R)
    (auth : Authenticator) (t : RT) (a : transport.Scope) (w w1 : World)
    (r : result transport.pingResp) :
  ping (name.Registry_ (name.Context ref)) t w = (r, w1) →
  (∀ pr, r = Ok pr → transport.challenge pr = transport.bearer →
     transport.parameters pr !! "realm" = None) →
  (transport.New ping refresh ref auth t a w).2 = w1
  ∧ transport.New ping refresh ref auth t a w
    = transport.New ping refresh' ref auth t a w.
Proof.
  intros Hping Hno. destruct r as [pr|e|p].
  - rewrite !(New_after_ping _ ref auth t a w w1 pr Hping).
    destruct (transport.challenge pr) eqn:Hch; try done.
    by rewrite (Hno pr eq_refl Hch).
  - unfold transport.New. by rewrite !(bind_Err _ _ _ _ _ Hping).
  - unfold transport.New. by rewrite !(bind_Panic _ _ _ _ _ Hping).
Qed.

(** X4.  For a Basic challenge [New] wraps the caller's transport with the
    caller's authenticator and returns at once: it makes no request after the
    ping, and needs no parameter of the challenge (no realm, unlike the
    Bearer branch). *)
Theorem New_basic (refresh : bearerT → M World bearerT) (ref : R)
    (auth : Authenticator) (t : RT) (a : transport.Scope) (w w1 : World)
    (pr : transport.pingResp) :
  ping (name.Registry_ (name.Context ref)) t w = (Ok pr, w1) →
  transport.challenge pr = transport.basic →
  transport.New ping refresh ref auth t a w
    = (Ok (transport.ofBasic (transport.basicTransport.mk t auth)), w1).
Proof.
  intros Hping Hch.
  by rewrite (New_after_ping refresh ref auth t a w w1 pr Hping), Hch.
Qed.

End handshake_outcomes.

(** ** [Image]: the scope it asks for *)

Section Image_outcomes.

Context {World T Authenticator R : Type} `{!name.Reference R}.

Abbreviation RT := (transport.RoundTripper T Authenticator).
Abbreviation bearerT :=
  (transport.bearerTransport.t (transport.RoundTripper T Authenticator) Authenticator).

Variable ping : name.Registry → RT → M World transport.pingResp.
Variable refresh : bearerT → M World bearerT.
Variable PullScope : transport.Scope.

(** X5.  An image [Image] returns keeps the reference it was given, and its
    client's transport is what the handshake returned for that reference, in
    pull scope: [Image] never asks for another scope, and does nothing after
    the handshake.  When the handshake fails, [Image] fails with its error. *)
Theorem Image_handshake (ref : R) (auth : Authenticator) (t : RT) (w w1 : World) :
  (∀ i, remote.Image ping refresh PullScope ref auth t w = (Ok i, w1) →
     remote.ref i = ref
     ∧ transport.New ping refresh ref auth t PullScope w
       = (Ok (http.Transport (remote.client i)), w1))
  ∧ (∀ e, remote.Image ping refresh PullScope ref auth t w = (Err e, w1) ↔
       transport.New ping refresh ref auth t PullScope w = (Err e, w1)).
Proof.
  unfold remote.Image, mbind, M_bind.
  destruct (transport.New ping refresh ref auth t PullScope w) as [[tr|e'|p] w'].
  - split.
    + intros i [= <- <-]. done.
    + intros e. split; discriminate.
  - split.
    + intros i. discriminate.
    + intros e. split; intros [= -> ->]; reflexivity.
  - split.
    + intros i. discriminate.
    + intros e. split; discriminate.
Qed.

End Image_outcomes.

(** ** The image's requests *)

Section image_requests.

Context {World T Authenticator R : Type} `{!name.Reference R}.

Abbreviation RT := (transport.RoundTripper T Authenticator).

Variable Scheme : name.Registry → string.
Variable DockerManifestSchema2 : string.
Variable ParseManifest : http.ReadCloser → result v1.Manifest.
Variable ParseConfigFile : http.ReadCloser → result v1.ConfigFile.
Variable SHA256 : http.ReadCloser → result v1.Hash.
Variable URL_String : url.URL → string.
Variable NewRequest : string → string → result http.Request.
Variable Do : http.Client RT → http.Request → M World http.Response.
Variable Get : http.Client RT → string → M World http.Response.
Variable Head : http.Client RT → string → M World http.Response.

Abbreviation image := (remote.image (T := T) (Authenticator := Authenticator) (R := R)).
Abbreviation Manifest :=
  (remote.Manifest Scheme DockerManifestSchema2 ParseManifest URL_String NewRequest Do).
Abbreviation Digest :=
  (remote.Digest Scheme DockerManifestSchema2 SHA256 URL_String NewRequest Do).
Abbreviation FSLayers :=
  (remote.FSLayers Scheme DockerManifestSchema2 ParseManifest URL_String NewRequest Do).
Abbreviation ConfigName :=
  (remote.ConfigName Scheme DockerManifestSchema2 ParseManifest URL_String NewRequest Do).
Abbreviation Blob := (remote.Blob Scheme URL_String Get).
Abbreviation BlobSize := (remote.BlobSize Scheme URL_String Head).
Abbreviation ConfigFile :=
  (remote.ConfigFile Scheme DockerManifestSchema2 ParseManifest ParseConfigFile
     URL_String NewRequest Do Get).
Abbreviation DiffIDs :=
  (remote.DiffIDs Scheme DockerManifestSchema2 ParseManifest ParseConfigFile
     URL_String NewRequest Do Get).
Abbreviation BlobSet :=
  (remote.BlobSet Scheme DockerManifestSchema2 ParseManifest URL_String NewRequest Do).
Abbreviation Layer :=
  (remote.Layer Scheme DockerManifestSchema2 ParseManifest ParseConfigFile
     URL_String NewRequest Do Get).
Abbreviation Layer_range := (remote.Layer_range Scheme URL_String Get).
Abbreviation manifestURL i :=
  (URL_String (remote.url Scheme i "manifests" (name.Identifier (remote.ref i)))).
Abbreviation blobURL i h := (URL_String (remote.url Scheme i "blobs" (v1.Hash_String h))).

(** A pure call that succeeded, then the rest; one that failed. *)
Lemma bind_lift_Ok {A B} (r : result A) (f : A → M World B) (w : World) (a : A) :
  r = Ok a → (lift r ≫= f) w = f a w.
Proof. by intros ->. Qed.

Lemma bind_lift_Err {A B} (r : result A) (f : A → M World B) (w : World) (e : error) :
  r = Err e → (lift r ≫= f) w = (Err e, w).
Proof. by intros ->. Qed.

(** X6.  [Manifest] and [Digest] send the same request: the one
    [http.NewRequest] made for a GET of the manifest URL, with its [Accept]
    header set to the one value [types.DockerManifestSchema2] and nothing else
    changed.  Of the response, whatever its status, [Manifest] decodes the
    body and [Digest] hashes the same bytes; an error of the round trip is
    the error of both. *)
Theorem Manifest_Digest_one_request (i : image) (req : http.Request) (w : World) :
  NewRequest "GET" (manifestURL i) = Ok req →
  ∃ sent : http.Request,
    http.Method sent = http.Method req
    ∧ http.URL sent = http.URL req
    ∧ http.Header sent !! "Accept" = Some [DockerManifestSchema2]
    ∧ (∀ k, k ≠ "Accept" → http.Header sent !! k = http.Header req !! k)
    ∧ (∀ resp w1, Do (remote.client i) sent w = (Ok resp, w1) →
         Manifest i w = (ParseManifest (http.Body resp), w1)
         ∧ Digest i w = (SHA256 (http.Body resp), w1))
    ∧ (∀ e w1, Do (remote.client i) sent w = (Err e, w1) →
         Manifest i w = (Err e, w1) ∧ Digest i w = (Err e, w1)).
Proof.
  intros Hreq. exists (http.Request_Header_Set "Accept" DockerManifestSchema2 req).
  split_and!; [reflexivity|reflexivity|..].
  - apply lookup_insert_eq.
  - intros k Hk. by apply lookup_insert_ne.
  - intros resp w1 HDo. unfold remote.Manifest, remote.Digest.
    rewrite !(bind_lift_Ok _ _ _ _ Hreq). by rewrite !(bind_Ok _ _ _ _ _ HDo).
  - intros e w1 HDo. unfold remote.Manifest, remote.Digest.
    rewrite !(bind_lift_Ok _ _ _ _ Hreq). by rewrite !(bind_Err _ _ _ _ _ HDo).
Qed.

(** X7.  When [http.NewRequest] refuses the manifest URL, [Manifest] and
    [Digest] fail with its error and make no request: the world is as it
    was. *)
Theorem Manifest_Digest_bad_URL (i : image) (e : error) (w : World) :
  NewRequest "GET" (manifestURL i) = Err e →
  Manifest i w = (Err e, w) ∧ Digest i w = (Err e, w).
Proof.
  intros Hreq. unfold remote.Manifest, remote.Digest.
  by rewrite !(bind_lift_Err _ _ _ _ Hreq).
Qed.

(** X8.  When the manifest cannot be had, nothing that needs it goes on: the
    error of [Manifest] is the error of [FSLayers], [ConfigName],
    [ConfigFile], [DiffIDs], [BlobSet] and [Layer], each in the world the
    failed fetch left, so none of them requests a blob. *)
Theorem Manifest_error_stops (i : image) (e : error) (w w1 : World) :
  Manifest i w = (Err e, w1) →
  FSLayers i w = (Err e, w1)
  ∧ ConfigName i w = (Err e, w1)
  ∧ ConfigFile i w = (Err e, w1)
  ∧ DiffIDs i w = (Err e, w1)
  ∧ BlobSet i w = (Err e, w1)
  ∧ ∀ h, Layer i h w = (Err e, w1).
Proof.
  intros Hm.
  assert (FSLayers i w = (Err e, w1)) as Hl.
  { unfold remote.FSLayers. by rewrite (bind_Err _ _ _ _ _ Hm). }
  assert (ConfigName i w = (Err e, w1)) as Hn.
  { unfold remote.ConfigName. by rewrite (bind_Err _ _ _ _ _ Hm). }
  assert (ConfigFile i w = (Err e, w1)) as Hc.
  { unfold remote.ConfigFile. by rewrite (bind_Err _ _ _ _ _ Hn). }
  split_and!; [exact Hl|exact Hn|exact Hc|..].
  - unfold remote.DiffIDs. by rewrite (bind_Err _ _ _ _ _ Hc).
  - unfold remote.BlobSet. by rewrite (bind_Err _ _ _ _ _ Hl).
  - intros h. unfold remote.Layer. by rewrite (bind_Err _ _ _ _ _ Hl).
Qed.

(** X9.  [FSLayers] returns one digest for each layer of the manifest, in the
    manifest's order: as many as there are layers (none for a manifest
    without layers), the [k]-th being the digest of the [k]-th layer. *)
Theorem FSLayers_in_manifest_order (i : image) (m : v1.Manifest) (w w1 : World) :
  Manifest i w = (Ok m, w1) →
  ∃ layers : list v1.Hash,
    FSLayers i w = (Ok layers, w1)
    ∧ length layers = length (v1.Layers m)
    ∧ (∀ k : nat, layers !! k = v1.Digest <$> v1.Layers m !! k)
    ∧ (v1.Layers m = [] → layers = []).
Proof.
  intros Hm. exists (v1.Digest <$> v1.Layers m). split_and!.
  - by apply FSLayers_Ok.
  - apply length_fmap.
  - intros k. apply list_lookup_fmap.
  - by intros ->.
Qed.

(** X10.  [ConfigFile] and [DiffIDs] fetch the manifest, then the blob at the
    manifest's config digest, and decode the body of that response, whatever
    its status: [DiffIDs] returns the diff IDs of the decoded config in their
    order, and the decoder's error when the body does not decode. *)
Theorem DiffIDs_from_config_blob (i : image) (m : v1.Manifest) (resp : http.Response)
    (w w1 w2 : World) :
  Manifest i w = (Ok m, w1) →
  Get (remote.client i) (blobURL i (v1.Digest (v1.Config m))) w1 = (Ok resp, w2) →
  ConfigFile i w = (ParseConfigFile (http.Body resp), w2)
  ∧ (∀ config, ParseConfigFile (http.Body resp) = Ok config →
       DiffIDs i w = (Ok (v1.DiffIDs (v1.RootFS_ config)), w2))
  ∧ (∀ e, ParseConfigFile (http.Body resp) = Err e → DiffIDs i w = (Err e, w2)).
Proof.
  intros Hm Hget.
  assert (ConfigFile i w = (ParseConfigFile (http.Body resp), w2)) as Hc.
  { unfold remote.ConfigFile.
    rewrite (bind_Ok _ _ _ _ _ (ConfigName_Ok _ _ _ _ _ _ i m w w1 Hm)).
    unfold remote.Blob. unfold mbind at 1, M_bind at 1.
    by rewrite (bind_Ok _ _ _ _ _ Hget). }
  split_and!; [exact Hc|..].
  - intros config Hp. unfold remote.DiffIDs. rewrite Hp in Hc.
    by rewrite (bind_Ok _ _ _ _ _ Hc).
  - intros e Hp. unfold remote.DiffIDs. rewrite Hp in Hc.
    by rewrite (bind_Err _ _ _ _ _ Hc).
Qed.

(** [BlobSet] after its two fetches of the manifest. *)
Lemma BlobSet_after_fetches (i : image) (m1 m2 : v1.Manifest) (w w1 w2 : World) :
  Manifest i w = (Ok m1, w1) →
  Manifest i w1 = (Ok m2, w2) →
  BlobSet i w =
    (Ok ({[v1.Digest (v1.Config m2)]} ∪ list_to_set (v1.Digest <$> v1.Layers m1)), w2).
Proof.
  intros Hm1 Hm2. unfold remote.BlobSet.
  rewrite (bind_Ok _ _ _ _ _ (FSLayers_Ok _ _ _ _ _ _ i m1 w w1 Hm1)).
  rewrite (bind_Ok _ _ _ _ _ (ConfigName_Ok _ _ _ _ _ _ i m2 w1 w2 Hm2)).
  rewrite foldl_insert_set. by rewrite (right_id_L ∅ (∪)).
Qed.

(** X11.  [BlobSet] fetches the manifest twice and does not compare the two:
    when the registry serves [m1] first and [m2] next (the tag has moved in
    between), the set holds the layer digests of [m1] and the config digest
    of [m2], and nothing else. *)
Theorem BlobSet_two_fetches (i : image) (m1 m2 : v1.Manifest) (w w1 w2 : World) :
  Manifest i w = (Ok m1, w1) →
  Manifest i w1 = (Ok m2, w2) →
  ∃ set : gset v1.Hash,
    BlobSet i w = (Ok set, w2)
    ∧ ∀ h, h ∈ set ↔ h = v1.Digest (v1.Config m2) ∨ h ∈ v1.Digest <$> v1.Layers m1.
Proof.
  intros Hm1 Hm2.
  exists ({[v1.Digest (v1.Config m2)]} ∪ list_to_set (v1.Digest <$> v1.Layers m1)).
  split; [by apply (BlobSet_after_fetches i m1 m2 w w1 w2)|].
  intros h. by rewrite elem_of_union, elem_of_singleton, elem_of_list_to_set.
Qed.

(** X12.  For a manifest of [N] layers served at both fetches, the set
    [BlobSet] returns has [N + 1] members exactly when the config digest and
    the layer digests are pairwise distinct; a layer listed twice, or a
    layer that is the config blob, counts once. *)
Theorem BlobSet_size (i : image) (m : v1.Manifest) (w w1 w2 : World) :
  Manifest i w = (Ok m, w1) →
  Manifest i w1 = (Ok m, w2) →
  ∃ set : gset v1.Hash,
    BlobSet i w = (Ok set, w2)
    ∧ (size set = S (length (v1.Layers m))
       ↔ NoDup (v1.Digest (v1.Config m) :: (v1.Digest <$> v1.Layers m))).
Proof.
  intros Hm1 Hm2.
  exists ({[v1.Digest (v1.Config m)]} ∪ list_to_set (v1.Digest <$> v1.Layers m)).
  split; [by apply (BlobSet_after_fetches i m m w w1 w2)|].
  set (l := v1.Digest (v1.Config m) :: (v1.Digest <$> v1.Layers m)).
  change ({[v1.Digest (v1.Config m)]} ∪ list_to_set (v1.Digest <$> v1.Layers m))
    with (list_to_set (C := gset v1.Hash) l).
  assert (length l = S (length (v1.Layers m))) as <-.
  { unfold l. simpl. by rewrite length_fmap. }
  split.
  - intros Hsize.
    assert (elements (list_to_set (C := gset v1.Hash) l) ≡ₚ l) as <-.
    { apply submseteq_length_Permutation.
      - apply NoDup_submseteq; [apply NoDup_elements|].
        intros h. by rewrite elem_of_elements, elem_of_list_to_set.
      - apply Nat.eq_le_incl. symmetry. exact Hsize. }
    apply NoDup_elements.
  - apply size_list_to_set.
Qed.

(** X13.  [Layer] indexes the config's diff IDs by the position it found
    among the manifest's layers, without a bounds check: given the digest at
    position [k] of the layers when the config lists [k] diff IDs or fewer,
    it panics. *)
Theorem Layer_index_out_of_range (i : image) (h : v1.Hash)
    (layers diffids : list v1.Hash) (k : nat) (w w1 w2 : World) :
  FSLayers i w = (Ok layers, w1) →
  DiffIDs i w1 = (Ok diffids, w2) →
  layers !! k = Some h →
  (∀ j, (j < k)%nat → layers !! j ≠ Some h) →
  (length diffids ≤ k)%nat →
  Layer i h w = (Panic "index out of range", w2).
Proof.
  intros Hl Hd Hk Hfirst Hshort.
  rewrite (Layer_unfold _ _ _ _ _ _ _ _ i h layers diffids w w1 w2 Hl Hd),
    Layer_range_find.
  assert (list_find (λ l, l = h) layers = Some (k, h)) as ->.
  { apply list_find_Some. split_and!; [done..|].
    intros j y Hj Hjk ->. by apply (Hfirst j). }
  simpl. by rewrite (lookup_ge_None_2 diffids k Hshort).
Qed.

(** X14.  When the config lists at least as many diff IDs as the manifest
    lists layers, [Layer] does not panic in its loop: either [h] is a layer
    digest, at a position where the config has a diff ID [d], and [Layer h]
    is [Blob d]; or [h] is no layer digest and [Layer h] fails with "could
    not find Layer by diffid". *)
Theorem Layer_outcomes (i : image) (h : v1.Hash)
    (layers diffids : list v1.Hash) (w w1 w2 : World) :
  FSLayers i w = (Ok layers, w1) →
  DiffIDs i w1 = (Ok diffids, w2) →
  (length layers ≤ length diffids)%nat →
  (∃ k d, layers !! k = Some h ∧ diffids !! k = Some d
          ∧ Layer i h w = Blob i d w2)
  ∨ ((h ∉ layers)
     ∧ Layer i h w
       = (Err (Errorf "could not find Layer by diffid (%v)" [ArgHash h]), w2)).
Proof.
  intros Hl Hd Hlen.
  rewrite (Layer_unfold _ _ _ _ _ _ _ _ i h layers diffids w w1 w2 Hl Hd),
    Layer_range_find.
  destruct (list_find (λ l, l = h) layers) as [[k x]|] eqn:Hfind.
  - apply list_find_Some in Hfind as (Hk & -> & _).
    destruct (lookup_lt_is_Some_2 diffids k) as [d Hdk].
    { apply lookup_lt_Some in Hk. lia. }
    left. exists k, d. simpl. by rewrite Hdk.
  - right. split; [|reflexivity].
    apply list_find_None in Hfind. rewrite Forall_forall in Hfind.
    intros Hin. by apply (Hfind h Hin).
Qed.

(** X15.  A blob is addressed by the registry, the repository and the
    digest, and by nothing else of the reference: two images with one client
    whose references have the same context (two tags of one repository)
    make the same request for a digest, in [Blob] and in [BlobSize]. *)
Theorem Blob_by_repository (i i' : image) (h : v1.Hash) (w : World) :
  remote.client i = remote.client i' →
  name.Context (remote.ref i) = name.Context (remote.ref i') →
  blobURL i h = blobURL i' h
  ∧ Blob i h w = Blob i' h w
  ∧ BlobSize i h w = BlobSize i' h w.
Proof.
  intros Hc Hctx.
  assert (remote.url Scheme i "blobs" (v1.Hash_String h)
          = remote.url Scheme i' "blobs" (v1.Hash_String h)) as Hurl.
  { unfold remote.url. by rewrite Hctx. }
  split_and!.
  - by rewrite Hurl.
  - unfold remote.Blob. by rewrite Hurl, Hc.
  - unfold remote.BlobSize. by rewrite Hurl, Hc.
Qed.

(** X16.  Within one image and one kind of resource, [url] sends two
    identifiers to one URL only when they are the same identifier: two
    digests whose strings differ have different blob paths. *)
Theorem url_identifier_inj (i : image) (resource identifier identifier' : string) :
  remote.url Scheme i resource identifier = remote.url Scheme i resource identifier' →
  identifier = identifier'.
Proof.
  unfold remote.url. intros [= Hpath].
  by repeat apply (inj (String.app _)) in Hpath.
Qed.

End image_requests.

(** ** The command *)

Section cmd_properties.

Context {World T Authenticator Tag Digest Strictness : Type}.
Context `{!name.Reference Tag, !name.Reference Digest}.

Abbreviation RT := (transport.RoundTripper T Authenticator).
Abbreviation bearerT :=
  (transport.bearerTransport.t (transport.RoundTripper T Authenticator) Authenticator).

Variable NewTag : string → Strictness → result Tag.
Variable NewDigest : string → Strictness → result Digest.
Variable WeakValidation : Strictness.
Variable Resolve : name.Registry → M World Authenticator.
Variable DefaultTransport : RT.
Variable MarshalConfigFile : v1.ConfigFile → string * option error.
Variable MarshalManifest : v1.Manifest → string * option error.
Variable Println : string → World → World.
Variable ping : name.Registry → RT → M World transport.pingResp.
Variable refresh : bearerT → M World bearerT.
Variable Scheme : name.Registry → string.
Variable PullScope : transport.Scope.
Variable DockerManifestSchema2 : string.
Variable ParseManifest : http.ReadCloser → result v1.Manifest.
Variable ParseConfigFile : http.ReadCloser → result v1.ConfigFile.
Variable URL_String : url.URL → string.
Variable NewRequest : string → string → result http.Request.
Variable Do : http.Client RT → http.Request → M World http.Response.
Variable Get : http.Client RT → string → M World http.Response.

Abbreviation parseReference := (cmd.parseReference NewTag NewDigest WeakValidation).
Abbreviation printConfig :=
  (cmd.printConfig NewTag NewDigest WeakValidation Resolve DefaultTransport
     MarshalConfigFile Println ping refresh Scheme PullScope DockerManifestSchema2
     ParseManifest ParseConfigFile URL_String NewRequest Do Get).
Abbreviation printManifest :=
  (cmd.printManifest NewTag NewDigest WeakValidation Resolve DefaultTransport
     MarshalManifest Println ping refresh Scheme PullScope DockerManifestSchema2
     ParseManifest URL_String NewRequest Do).
Abbreviation main :=
  (cmd.main NewTag NewDigest WeakValidation Resolve DefaultTransport
     MarshalConfigFile MarshalManifest Println ping refresh Scheme PullScope
     DockerManifestSchema2 ParseManifest ParseConfigFile URL_String NewRequest Do Get).
Abbreviation Image := (remote.Image (R := Tag + Digest) ping refresh PullScope).
Abbreviation ConfigFile :=
  (remote.ConfigFile (R := Tag + Digest) Scheme DockerManifestSchema2 ParseManifest
     ParseConfigFile URL_String NewRequest Do Get).
Abbreviation Manifest :=
  (remote.Manifest (R := Tag + Digest) Scheme DockerManifestSchema2 ParseManifest
     URL_String NewRequest Do).

(** X17.  [parseReference] reads its argument as a tag first: what the tag
    parser accepts is a tag, whatever the digest parser would say.  It yields
    a digest only when the tag parser has refused, and it fails only when
    both refuse, with the digest parser's error: the tag parser's error is
    never reported. *)
Theorem parseReference_tag_first (ref : string) :
  (∀ tag, NewTag ref WeakValidation = Ok tag → parseReference ref = Ok (inl tag))
  ∧ (∀ digest, parseReference ref = Ok (inr digest) ↔
       (∃ e, NewTag ref WeakValidation = Err e)
       ∧ NewDigest ref WeakValidation = Ok digest)
  ∧ (∀ e, parseReference ref = Err e ↔
       (∃ e', NewTag ref WeakValidation = Err e')
       ∧ NewDigest ref WeakValidation = Err e).
Proof.
  unfold cmd.parseReference. split_and!.
  - by intros tag ->.
  - intros digest.
    destruct (NewTag ref WeakValidation) as [tag|e'|p]; [split|..].
    + discriminate.
    + by intros [[e' ?] _].
    + destruct (NewDigest ref WeakValidation) as [d|e|p]; split.
      * intros [= ->]. eauto.
      * by intros [_ [= ->]].
      * discriminate.
      * by intros [_ ?].
      * discriminate.
      * by intros [_ ?].
    + split; [discriminate|]. by intros [[e' ?] _].
  - intros e.
    destruct (NewTag ref WeakValidation) as [tag|e'|p]; [split|..].
    + discriminate.
    + by intros [[e' ?] _].
    + destruct (NewDigest ref WeakValidation) as [d|e0|p]; split.
      * discriminate.
      * by intros [_ ?].
      * intros [= ->]. eauto.
      * by intros [_ [= ->]].
      * discriminate.
      * by intros [_ ?].
    + split; [discriminate|]. by intros [[e' ?] _].
Qed.

(** X18.  [main] reads [os.Args[1]], and for the two subcommands
    [os.Args[2]], without looking at the length of [os.Args]: run with no
    subcommand, or with "config" or "manifest" and no reference, it panics
    and has done nothing. *)
Theorem main_missing_argument (Args : list string) (w : World) :
  (length Args ≤ 1)%nat
  ∨ (length Args = 2%nat
     ∧ (Args !! 1%nat = Some "config" ∨ Args !! 1%nat = Some "manifest")) →
  main Args w = (cmd.Panicked "index out of range", w).
Proof.
  intros [Hshort|[Hlen Hsub]]; unfold cmd.main.
  - by rewrite (lookup_ge_None_2 Args 1%nat Hshort).
  - assert (Args !! 2%nat = None) as Hnone by (apply lookup_ge_None_2; lia).
    destruct Hsub as [-> | ->]; simpl; by rewrite Hnone.
Qed.

(** X19.  Given "config" or "manifest" and the empty string as the reference,
    [main] returns without an error and has done nothing: nothing is parsed,
    requested or printed. *)
Theorem main_empty_reference (Args : list string) (sub : string) (w : World) :
  Args !! 1%nat = Some sub →
  sub = "config" ∨ sub = "manifest" →
  Args !! 2%nat = Some "" →
  main Args w = (cmd.Returned, w).
Proof.
  intros Hsub Hcase Harg. unfold cmd.main. rewrite Hsub, Harg.
  by destruct Hcase as [-> | ->].
Qed.

(** X20.  Given any other subcommand, [main] logs "unexpected subcommand"
    with the subcommand's name and exits with status 1, whether a reference
    follows or not, and has done nothing else. *)
Theorem main_unexpected_subcommand (Args : list string) (sub : string) (w : World) :
  Args !! 1%nat = Some sub →
  sub ≠ "config" →
  sub ≠ "manifest" →
  main Args w = (cmd.Exit1 (Errorf "unexpected subcommand: %s" [ArgString sub]), w).
Proof.
  intros Hsub Hc Hm. unfold cmd.main. rewrite Hsub.
  by rewrite !decide_False.
Qed.

(** X21.  When every step succeeds, [printConfig] prints one line, the bytes
    [json.Marshal] returned for the config, and returns; it prints them
    whether [json.Marshal] returned an error beside them or not, since it
    drops that error. *)
Theorem printConfig_prints (arg : string) (ref : Tag + Digest) (auth : Authenticator)
    (i : remote.image) (config : v1.ConfigFile) (w w1 w2 w3 : World) :
  parseReference arg = Ok ref →
  Resolve (name.Registry_ (name.Context ref)) w = (Ok auth, w1) →
  Image ref auth DefaultTransport w1 = (Ok i, w2) →
  ConfigFile i w2 = (Ok config, w3) →
  printConfig arg w = (cmd.Returned, Println (MarshalConfigFile config).1 w3).
Proof.
  intros Hp Hr Hi Hc. unfold cmd.printConfig, cmd.orFatalln, lift.
  by rewrite Hp, Hr, Hi, Hc.
Qed.

(** X22.  When every step succeeds, [printManifest] prints one line, the
    bytes [json.Marshal] returned for the manifest, and returns, dropping the
    error of [json.Marshal] as [printConfig] does. *)
Theorem printManifest_prints (arg : string) (ref : Tag + Digest) (auth : Authenticator)
    (i : remote.image) (manifest : v1.Manifest) (w w1 w2 w3 : World) :
  parseReference arg = Ok ref →
  Resolve (name.Registry_ (name.Context ref)) w = (Ok auth, w1) →
  Image ref auth DefaultTransport w1 = (Ok i, w2) →
  Manifest i w2 = (Ok manifest, w3) →
  printManifest arg w = (cmd.Returned, Println (MarshalManifest manifest).1 w3).
Proof.
  intros Hp Hr Hi Hm. unfold cmd.printManifest, cmd.orFatalln, lift.
  by rewrite Hp, Hr, Hi, Hm.
Qed.

(** X23.  A failure is fatal where it happens: [printConfig] and
    [printManifest] exit with status 1 logging the error of the first step
    that fails (the reference, the keychain, the handshake), in the world
    that step left, so that nothing later is run and nothing is printed. *)
Theorem print_fatal (arg : string) (e : error) (w : World) :
  (parseReference arg = Err e →
     printConfig arg w = (cmd.Exit1 e, w) ∧ printManifest arg w = (cmd.Exit1 e, w))
  ∧ (∀ ref w1, parseReference arg = Ok ref →
       Resolve (name.Registry_ (name.Context ref)) w = (Err e, w1) →
       printConfig arg w = (cmd.Exit1 e, w1) ∧ printManifest arg w = (cmd.Exit1 e, w1))
  ∧ (∀ ref auth w1 w2, parseReference arg = Ok ref →
       Resolve (name.Registry_ (name.Context ref)) w = (Ok auth, w1) →
       Image ref auth DefaultTransport w1 = (Err e, w2) →
       printConfig arg w = (cmd.Exit1 e, w2) ∧ printManifest arg w = (cmd.Exit1 e, w2)).
Proof.
  unfold cmd.printConfig, cmd.printManifest, cmd.orFatalln, lift. split_and!.
  - by intros ->.
  - intros ref w1 -> Hr. by rewrite Hr.
  - intros ref auth w1 w2 -> Hr Hi. by rewrite Hr, Hi.
Qed.

End cmd_properties.

(** ** The further properties on the registry of [testdata] *)

(** X1 at a ping that finds a Basic challenge. *)
Lemma New_Ok_inv_witness :
  ∃ pr w1, testdata.ping_basic (name.Registry_ (name.Context testdata.app))
             testdata.base [] = (Ok pr, w1).
Proof.
  destruct (New_Ok_inv testdata.ping_basic testdata.refresh_refused testdata.app tt
              testdata.base "pull" [] []
              (transport.ofBasic (transport.basicTransport.mk testdata.base tt))
              eq_refl)
    as (pr & w1 & Hping & _).
  by exists pr, w1.
Defined.

(** X2 at a ping that finds the scheme "Negotiate". *)
Lemma New_Err_inv_witness :
  testdata.ping_negotiate (name.Registry_ (name.Context testdata.app)) testdata.base []
    = (Err (Errorf "Unrecognized challenge: %s" [ArgString "Negotiate"]), [])
  ∨ ∃ pr w1, testdata.ping_negotiate (name.Registry_ (name.Context testdata.app))
               testdata.base [] = (Ok pr, w1).
Proof.
  destruct (New_Err_inv testdata.ping_negotiate testdata.refresh_refused testdata.app
              tt testdata.base "pull" [] []
              (Errorf "Unrecognized challenge: %s" [ArgString "Negotiate"]) eq_refl)
    as [Hping|(pr & w1 & Hping & _)].
  - by left.
  - right. by exists pr, w1.
Defined.

(** X3 at a ping that fails: the exchange, refused or granted, is not run. *)
Lemma New_without_exchange_witness :
  transport.New testdata.ping_refused testdata.refresh_refused testdata.app tt
    testdata.base "pull" []
  = transport.New testdata.ping_refused testdata.refresh_granted testdata.app tt
      testdata.base "pull" [].
Proof.
  apply (New_without_exchange testdata.ping_refused testdata.refresh_refused
           testdata.refresh_granted testdata.app tt testdata.base "pull" [] []
           (Err (errorString "dial tcp: connection refused")) eq_refl).
  intros pr. discriminate.
Defined.

(** X4 at a ping that finds a Basic challenge with no parameter. *)
Lemma New_basic_witness :
  transport.New testdata.ping_basic testdata.refresh_refused testdata.app tt
    testdata.base "pull" []
  = (Ok (transport.ofBasic (transport.basicTransport.mk testdata.base tt)), []).
Proof.
  apply (New_basic testdata.ping_basic testdata.refresh_refused testdata.app tt
           testdata.base "pull" [] []
           {| transport.challenge := transport.basic; transport.parameters := ∅ |});
    reflexivity.
Defined.

(** X5 at the anonymous registry. *)
Lemma Image_handshake_witness :
  transport.New testdata.ping testdata.refresh_refused testdata.app tt testdata.base
    "pull" []
  = (Ok (http.Transport (remote.client testdata.img)), [testdata.plain "GET" "/v2/"]).
Proof.
  apply (proj1 (Image_handshake testdata.ping testdata.refresh_refused "pull"
                  testdata.app tt testdata.base [] [testdata.plain "GET" "/v2/"])
           testdata.img).
  reflexivity.
Defined.

(** X6 at the image of [testdata]. *)
Lemma Manifest_Digest_one_request_witness :
  ∃ sent : http.Request,
    http.Header sent !! "Accept" = Some [testdata.DockerManifestSchema2]
    ∧ http.URL sent = {| url.Scheme := "https"; url.Host := "registry.example";
                         url.Path := "/v2/library/app/manifests/latest" |}.
Proof.
  assert (testdata.NewRequest "GET"
            (testdata.URL_String
               (remote.url testdata.Scheme testdata.img "manifests"
                  (name.Identifier (remote.ref testdata.img))))
          = Ok {| http.Method := "GET";
                  http.URL := {| url.Scheme := "https"; url.Host := "registry.example";
                                 url.Path := "/v2/library/app/manifests/latest" |};
                  http.Header := ∅ |}) as Hreq by reflexivity.
  destruct (Manifest_Digest_one_request testdata.Scheme testdata.DockerManifestSchema2
              testdata.ParseManifest testdata.SHA256 testdata.URL_String
              testdata.NewRequest testdata.Do testdata.img _ [] Hreq)
    as (sent & _ & Hurl & Haccept & _).
  exists sent. split; [exact Haccept|exact Hurl].
Defined.

(** X7 with an [http.NewRequest] that refuses the URL: no request is logged. *)
Lemma Manifest_Digest_bad_URL_witness :
  remote.Manifest testdata.Scheme testdata.DockerManifestSchema2 testdata.ParseManifest
    testdata.URL_String testdata.NewRequest_refuses testdata.Do testdata.img []
  = (Err (errorString "parse: invalid URL"), []).
Proof.
  refine (proj1 (Manifest_Digest_bad_URL testdata.Scheme testdata.DockerManifestSchema2
                   testdata.ParseManifest testdata.SHA256 testdata.URL_String
                   testdata.NewRequest_refuses testdata.Do testdata.img
                   (errorString "parse: invalid URL") [] _)).
  reflexivity.
Defined.

(** X8 at the tag the registry does not hold: one request, for the manifest. *)
Lemma Manifest_error_stops_witness :
  testdata.BlobSet testdata.img_v2 []
  = (Err (errorString "invalid manifest"),
     [testdata.plain "GET" "/v2/library/app/manifests/v2"]).
Proof.
  refine (proj1 (proj2 (proj2 (proj2 (proj2
            (Manifest_error_stops testdata.Scheme testdata.DockerManifestSchema2
               testdata.ParseManifest testdata.ParseConfigFile testdata.URL_String
               testdata.NewRequest testdata.Do testdata.Get testdata.img_v2
               (errorString "invalid manifest") []
               [testdata.plain "GET" "/v2/library/app/manifests/v2"] _)))))).
  reflexivity.
Defined.

(** X9 at the image of two layers. *)
Lemma FSLayers_in_manifest_order_witness :
  ∃ layers : list v1.Hash,
    (testdata.FSLayers testdata.img []).1 = Ok layers
    ∧ length layers = 2%nat
    ∧ layers !! 1%nat = Some testdata.L1.
Proof.
  destruct (FSLayers_in_manifest_order testdata.Scheme testdata.DockerManifestSchema2
              testdata.ParseManifest testdata.URL_String testdata.NewRequest
              testdata.Do testdata.img testdata.manifest []
              [testdata.plain "GET" "/v2/library/app/manifests/latest"])
    as (layers & HFS & Hlen & Hk & _); [reflexivity|].
  exists layers. split_and!.
  - unfold testdata.FSLayers. by rewrite HFS.
  - exact Hlen.
  - by rewrite Hk.
Defined.

(** X10 at the image of [testdata]: the manifest, then the blob at [cf]. *)
Lemma DiffIDs_from_config_blob_witness :
  testdata.DiffIDs testdata.img []
  = (Ok [testdata.D0; testdata.D1],
     [testdata.plain "GET" "/v2/library/app/manifests/latest";
      testdata.plain "GET" "/v2/library/app/blobs/sha256:cf"]).
Proof.
  refine (proj1 (proj2
            (DiffIDs_from_config_blob testdata.Scheme testdata.DockerManifestSchema2
               testdata.ParseManifest testdata.ParseConfigFile testdata.URL_String
               testdata.NewRequest testdata.Do testdata.Get testdata.img
               testdata.manifest (testdata.ok "config") []
               [testdata.plain "GET" "/v2/library/app/manifests/latest"]
               [testdata.plain "GET" "/v2/library/app/manifests/latest";
                testdata.plain "GET" "/v2/library/app/blobs/sha256:cf"] _ _))
            testdata.config _); reflexivity.
Defined.

(** X11 at the image of [testdata], served the same manifest twice. *)
Lemma BlobSet_two_fetches_witness :
  ∃ set : gset v1.Hash,
    (testdata.BlobSet testdata.img []).1 = Ok set
    ∧ testdata.C ∈ set ∧ testdata.L0 ∈ set ∧ testdata.D0 ∉ set.
Proof.
  destruct (BlobSet_two_fetches testdata.Scheme testdata.DockerManifestSchema2
              testdata.ParseManifest testdata.URL_String testdata.NewRequest
              testdata.Do testdata.img testdata.manifest testdata.manifest []
              [testdata.plain "GET" "/v2/library/app/manifests/latest"]
              [testdata.plain "GET" "/v2/library/app/manifests/latest";
               testdata.plain "GET" "/v2/library/app/manifests/latest"])
    as (set & Hset & Hin); [reflexivity|reflexivity|].
  exists set. split_and!.
  - unfold testdata.BlobSet. by rewrite Hset.
  - apply Hin. by left.
  - apply Hin. right. simpl. apply elem_of_cons. by left.
  - rewrite Hin. simpl. rewrite !elem_of_cons, elem_of_nil.
    by intros [?|[?|[?|[]]]].
Defined.

(** X12 at the image of [testdata]: three distinct digests, three members. *)
Lemma BlobSet_size_witness :
  ∃ set : gset v1.Hash,
    (testdata.BlobSet testdata.img []).1 = Ok set ∧ size set = 3%nat.
Proof.
  destruct (BlobSet_size testdata.Scheme testdata.DockerManifestSchema2
              testdata.ParseManifest testdata.URL_String testdata.NewRequest
              testdata.Do testdata.img testdata.manifest []
              [testdata.plain "GET" "/v2/library/app/manifests/latest"]
              [testdata.plain "GET" "/v2/library/app/manifests/latest";
               testdata.plain "GET" "/v2/library/app/manifests/latest"])
    as (set & Hset & Hsize); [reflexivity|reflexivity|].
  exists set. split.
  - unfold testdata.BlobSet. by rewrite Hset.
  - apply Hsize. simpl. apply NoDup_ListNoDup.
    repeat constructor; simpl; intuition discriminate.
Defined.

(** X13 with a config that lists one diff ID for the two layers. *)
Lemma Layer_index_out_of_range_witness :
  (remote.Layer testdata.Scheme testdata.DockerManifestSchema2 testdata.ParseManifest
     testdata.ParseShortConfig testdata.URL_String testdata.NewRequest testdata.Do
     testdata.Get testdata.img testdata.L1 []).1
  = Panic "index out of range".
Proof.
  rewrite (Layer_index_out_of_range testdata.Scheme testdata.DockerManifestSchema2
             testdata.ParseManifest testdata.ParseShortConfig testdata.URL_String
             testdata.NewRequest testdata.Do testdata.Get testdata.img testdata.L1
             [testdata.L0; testdata.L1] [testdata.D0] 1%nat []
             [testdata.plain "GET" "/v2/library/app/manifests/latest"]
             [testdata.plain "GET" "/v2/library/app/manifests/latest";
              testdata.plain "GET" "/v2/library/app/manifests/latest";
              testdata.plain "GET" "/v2/library/app/blobs/sha256:cf"]).
  - reflexivity.
  - reflexivity.
  - reflexivity.
  - reflexivity.
  - intros [|j] Hj; [discriminate|lia].
  - simpl. lia.
Defined.

(** X14 at the image of [testdata], for its first layer digest. *)
Lemma Layer_outcomes_witness :
  ∃ d, d ∈ [testdata.D0; testdata.D1]
       ∧ testdata.Layer testdata.img testdata.L0 []
         = testdata.Blob testdata.img d
             [testdata.plain "GET" "/v2/library/app/manifests/latest";
              testdata.plain "GET" "/v2/library/app/manifests/latest";
              testdata.plain "GET" "/v2/library/app/blobs/sha256:cf"].
Proof.
  destruct (Layer_outcomes testdata.Scheme testdata.DockerManifestSchema2
              testdata.ParseManifest testdata.ParseConfigFile testdata.URL_String
              testdata.NewRequest testdata.Do testdata.Get testdata.img testdata.L0
              [testdata.L0; testdata.L1] [testdata.D0; testdata.D1] []
              [testdata.plain "GET" "/v2/library/app/manifests/latest"]
              [testdata.plain "GET" "/v2/library/app/manifests/latest";
               testdata.plain "GET" "/v2/library/app/manifests/latest";
               testdata.plain "GET" "/v2/library/app/blobs/sha256:cf"])
    as [(k & d & _ & Hd & HL)|[Hnot _]]; [reflexivity|reflexivity|simpl; lia|..].
  - exists d. split; [by apply list_elem_of_lookup_2 in Hd|exact HL].
  - exfalso. apply Hnot. apply elem_of_cons. by left.
Defined.

(** X15 at the two tags of [library/app]. *)
Lemma Blob_by_repository_witness :
  testdata.Blob testdata.img testdata.L1 [] = testdata.Blob testdata.img_v2 testdata.L1 [].
Proof.
  refine (proj1 (proj2
            (Blob_by_repository testdata.Scheme testdata.URL_String testdata.Get
               testdata.Head testdata.img testdata.img_v2 testdata.L1 [] _ _)));
    reflexivity.
Defined.

(** X16 at a blob path. *)
Lemma url_identifier_inj_witness :
  v1.Hash_String testdata.L0 = "sha256:a0".
Proof.
  refine (url_identifier_inj testdata.Scheme testdata.img "blobs"
            (v1.Hash_String testdata.L0) "sha256:a0" _).
  reflexivity.
Defined.

(** X17 at a tag. *)
Lemma parseReference_tag_first_witness :
  testdata.parseReference "registry.example/library/app:latest" = Ok (inl testdata.app).
Proof.
  refine (proj1 (parseReference_tag_first testdata.NewTag testdata.NewDigest
                   testdata.WeakValidation "registry.example/library/app:latest")
            testdata.app _).
  reflexivity.
Defined.

(** X18 at a command line without a subcommand. *)
Lemma main_missing_argument_witness :
  testdata.main ["crane"] [] = (cmd.Panicked "index out of range", []).
Proof.
  refine (main_missing_argument testdata.NewTag testdata.NewDigest
            testdata.WeakValidation testdata.Resolve testdata.base
            testdata.MarshalConfigFile testdata.MarshalManifest testdata.Println
            testdata.ping testdata.refresh_refused testdata.Scheme "pull"
            testdata.DockerManifestSchema2 testdata.ParseManifest
            testdata.ParseConfigFile testdata.URL_String testdata.NewRequest
            testdata.Do testdata.Get ["crane"] [] _).
  left. simpl. lia.
Defined.

(** X19 at "config" with an empty reference. *)
Lemma main_empty_reference_witness :
  testdata.main ["crane"; "config"; ""] [] = (cmd.Returned, []).
Proof.
  refine (main_empty_reference testdata.NewTag testdata.NewDigest
            testdata.WeakValidation testdata.Resolve testdata.base
            testdata.MarshalConfigFile testdata.MarshalManifest testdata.Println
            testdata.ping testdata.refresh_refused testdata.Scheme "pull"
            testdata.DockerManifestSchema2 testdata.ParseManifest
            testdata.ParseConfigFile testdata.URL_String testdata.NewRequest
            testdata.Do testdata.Get ["crane"; "config"; ""] "config" [] _ _ _).
  - reflexivity.
  - by left.
  - reflexivity.
Defined.

(** X20 at the subcommand "push", with no reference. *)
Lemma main_unexpected_subcommand_witness :
  testdata.main ["crane"; "push"] []
  = (cmd.Exit1 (Errorf "unexpected subcommand: %s" [ArgString "push"]), []).
Proof.
  refine (main_unexpected_subcommand testdata.NewTag testdata.NewDigest
            testdata.WeakValidation testdata.Resolve testdata.base
            testdata.MarshalConfigFile testdata.MarshalManifest testdata.Println
            testdata.ping testdata.refresh_refused testdata.Scheme "pull"
            testdata.DockerManifestSchema2 testdata.ParseManifest
            testdata.ParseConfigFile testdata.URL_String testdata.NewRequest
            testdata.Do testdata.Get ["crane"; "push"] "push" [] _ _ _).
  - reflexivity.
  - discriminate.
  - discriminate.
Defined.

(** X21 at the tag [latest]: the ping, the manifest, the config blob, and
    one line on standard output. *)
Lemma printConfig_prints_witness :
  testdata.printConfig "registry.example/library/app:latest" []
  = (cmd.Returned,
     [testdata.plain "GET" "/v2/";
      testdata.plain "GET" "/v2/library/app/manifests/latest";
      testdata.plain "GET" "/v2/library/app/blobs/sha256:cf";
      testdata.plain "stdout" "{config}"]).
Proof.
  refine (printConfig_prints testdata.NewTag testdata.NewDigest
            testdata.WeakValidation testdata.Resolve testdata.base
            testdata.MarshalConfigFile testdata.Println
            testdata.ping testdata.refresh_refused testdata.Scheme "pull"
            testdata.DockerManifestSchema2 testdata.ParseManifest
            testdata.ParseConfigFile testdata.URL_String testdata.NewRequest
            testdata.Do testdata.Get "registry.example/library/app:latest"
            (inl testdata.app) tt
            {| remote.ref := inl testdata.app;
               remote.client := http.mkClient testdata.base |}
            testdata.config [] [] [testdata.plain "GET" "/v2/"]
            [testdata.plain "GET" "/v2/";
             testdata.plain "GET" "/v2/library/app/manifests/latest";
             testdata.plain "GET" "/v2/library/app/blobs/sha256:cf"] _ _ _ _);
    reflexivity.
Defined.

(** X22 at the tag [latest]. *)
Lemma printManifest_prints_witness :
  testdata.printManifest "registry.example/library/app:latest" []
  = (cmd.Returned,
     [testdata.plain "GET" "/v2/";
      testdata.plain "GET" "/v2/library/app/manifests/latest";
      testdata.plain "stdout" "{manifest}"]).
Proof.
  refine (printManifest_prints testdata.NewTag testdata.NewDigest
            testdata.WeakValidation testdata.Resolve testdata.base
            testdata.MarshalManifest testdata.Println
            testdata.ping testdata.refresh_refused testdata.Scheme "pull"
            testdata.DockerManifestSchema2 testdata.ParseManifest
            testdata.URL_String testdata.NewRequest
            testdata.Do "registry.example/library/app:latest"
            (inl testdata.app) tt
            {| remote.ref := inl testdata.app;
               remote.client := http.mkClient testdata.base |}
            testdata.manifest [] [] [testdata.plain "GET" "/v2/"]
            [testdata.plain "GET" "/v2/";
             testdata.plain "GET" "/v2/library/app/manifests/latest"] _ _ _ _);
    reflexivity.
Defined.

(** X23 at a string that is neither a tag nor a digest. *)
Lemma print_fatal_witness :
  testdata.printConfig "library" [] = (cmd.Exit1 (errorString "not a digest"), []).
Proof.
  refine (proj1 (proj1 (print_fatal testdata.NewTag testdata.NewDigest
            testdata.WeakValidation testdata.Resolve testdata.base
            testdata.MarshalConfigFile testdata.MarshalManifest testdata.Println
            testdata.ping testdata.refresh_refused testdata.Scheme "pull"
            testdata.DockerManifestSchema2 testdata.ParseManifest
            testdata.ParseConfigFile testdata.URL_String testdata.NewRequest
            testdata.Do testdata.Get "library" (errorString "not a digest") []) _)).
  reflexivity.
Defined.
